(** * Artemis Teensy flight software: packet router and Raspberry Pi channel

    A shallow embedding of [main.cpp] (the router that runs in the Arduino
    [loop()]) and of [channels/rpi_channel.cpp] (the Raspberry Pi channel
    thread), with the global variables of both translation units gathered
    in one [State] record, so that the queues, the pin levels and the
    thread list are shared exactly as the C++ globals are. *)

From Stdlib Require Import PrimFloat.
From Stdlib Require Import ZArith List String Ascii Lia.

From stdpp Require Import base option list gmap.
Import ListNotations.

Local Open Scope Z_scope.

(** ** Machine integers *)

(** [(uint8_t)x]: conversion to an 8-bit unsigned integer wraps modulo 256. *)
Definition u8 (x : Z) : Z := x mod 256.

(** [unsigned long] is 32 bits wide on the Teensy (ARM Cortex-M7). *)
Definition u32 (x : Z) : Z := x mod 2 ^ 32.

(** ** [lib/config/teensy_pins.h] *)

Inductive TEENSY_PINS : Set :=
  | UART4_RXD | UART4_TXD | T_GPIO2 | T_GPIO3 | T_GPIO4 | T_GPIO5 | T_GPIO6
  | RADIO_RESET | NIRQ | T_CS1 | T_CS | SPI0_MOSI | SPI0_MISO | SPI0_SCLK
  | AIN0 | AIN1 | SCL1_I2C | SDA1_I2C | I2C2_SDA | I2C2_SCL | AIN3 | AIN4
  | AIN5 | AIN6 | I2C1_SCL | I2C1_SDA | SPI1_D1 | SPI1_SCLK | UART5_TXD
  | UART5_RXD | RX_ON | TX_ON | PI_STATUS | GPS_RSTN | UART2_RXD | UART2_TXD
  | RPI_ENABLE | SDN | SPI1_CS1 | SPI1_D0 | A16_UNUSED | AIN2.

(** The enumerators carry no initialiser, so each one is numbered by its
    position in the declaration, starting from 0. *)
Definition pin_number (p : TEENSY_PINS) : Z :=
  match p with
  | UART4_RXD => 0 | UART4_TXD => 1 | T_GPIO2 => 2 | T_GPIO3 => 3
  | T_GPIO4 => 4 | T_GPIO5 => 5 | T_GPIO6 => 6 | RADIO_RESET => 7
  | NIRQ => 8 | T_CS1 => 9 | T_CS => 10 | SPI0_MOSI => 11 | SPI0_MISO => 12
  | SPI0_SCLK => 13 | AIN0 => 14 | AIN1 => 15 | SCL1_I2C => 16
  | SDA1_I2C => 17 | I2C2_SDA => 18 | I2C2_SCL => 19 | AIN3 => 20
  | AIN4 => 21 | AIN5 => 22 | AIN6 => 23 | I2C1_SCL => 24 | I2C1_SDA => 25
  | SPI1_D1 => 26 | SPI1_SCLK => 27 | UART5_TXD => 28 | UART5_RXD => 29
  | RX_ON => 30 | TX_ON => 31 | PI_STATUS => 32 | GPS_RSTN => 33
  | UART2_RXD => 34 | UART2_TXD => 35 | RPI_ENABLE => 36 | SDN => 37
  | SPI1_CS1 => 38 | SPI1_D0 => 39 | A16_UNUSED => 40 | AIN2 => 41
  end.

(** ** Packets *)

(** [PacketComm::TypeId]: the enumerators that the two source files name,
    and [OtherTypeId] for every other member of the enumeration. *)
Inductive TypeId : Set :=
  | CommandObcPing
  | CommandObcHalt
  | CommandObcSendBeacon
  | CommandEpsCommunicate
  | CommandEpsSwitchName
  | CommandEpsSwitchStatus
  | DataObcPong
  | DataEpsResponse
  | OtherTypeId (code : Z).

Record Header : Set := mkHeader {
  type     : TypeId;
  nodeorig : Z;
  nodedest : Z;
  chanin   : Z;
  chanout  : Z
}.

(** [PacketComm]: the header, the payload [data] and the framed bytes
    [packetized] that [SLIPPacketize] fills in. *)
Record PacketComm : Set := mkPacket {
  header     : Header;
  data       : list Z;
  packetized : list Z
}.

(** Field updates on a packet, one per assignment form used in the source. *)
Definition set_type (t : TypeId) (p : PacketComm) : PacketComm :=
  let h := header p in
  mkPacket (mkHeader t (nodeorig h) (nodedest h) (chanin h) (chanout h))
           (data p) (packetized p).

Definition set_nodeorig (n : Z) (p : PacketComm) : PacketComm :=
  let h := header p in
  mkPacket (mkHeader (type h) n (nodedest h) (chanin h) (chanout h))
           (data p) (packetized p).

Definition set_nodedest (n : Z) (p : PacketComm) : PacketComm :=
  let h := header p in
  mkPacket (mkHeader (type h) (nodeorig h) n (chanin h) (chanout h))
           (data p) (packetized p).

Definition set_data (d : list Z) (p : PacketComm) : PacketComm :=
  mkPacket (header p) d (packetized p).

Definition set_packetized (bytes : list Z) (p : PacketComm) : PacketComm :=
  mkPacket (header p) (data p) bytes.

(** [std::vector<uint8_t>::resize(n)]: keeps the first [n] bytes and pads
    with zero bytes when the vector was shorter. *)
Definition resize (n : nat) (d : list Z) : list Z :=
  take n d ++ replicate (n - length d) 0.

(** [std::vector<uint8_t>::push_back(b)]: the argument is converted to
    [uint8_t]. *)
Definition push_back (b : Z) (d : list Z) : list Z := d ++ [u8 b].

(** The characters of a C string literal, without the terminating NUL;
    its length is what [strlen] returns. *)
Definition c_str (lit : string) : list Z :=
  map (fun c => Z.of_N (N_of_ascii c)) (list_ascii_of_string lit).

(** ** Shared globals and the outside world *)

(** An entry of [thread_list]: [{thread_id, channel_id}]. *)
Record thread_struct : Set := mkThread {
  thread_id  : Z;
  channel_id : Z
}.

(** What the code does to the outside world, in program order:
    [Serial2.write], [threads.delay] and [digitalWrite].  Debug printing is
    left out: it never feeds back into the program. *)
Inductive Event : Set :=
  | EvSerial2Write (b : Z)
  | EvDelay (ms : Z)
  | EvDigitalWrite (pin : Z) (level : bool).

(** [elapsedMillis] (Teensy core): the object stores the [millis()] value
    at which it read zero. *)
Definition elapsedMillis : Set := Z.

(** All globals of [main.cpp], of the RPi channel and of the channel
    helpers, together with the state of the board around them:
    - [packet] is the router's packet buffer, [rpi_packet] is
      [Channels::RPI::packet];
    - [pins] holds the current level of every pin (absent = LOW), both the
      outputs the code drives and the inputs driven from outside;
    - [millis] is the millisecond clock, [bus_voltage] the reading that
      the battery-board current sensor returns;
    - [addThread_ret] lists the values that the next calls of
      [threads.addThread] return (the call fails with -1 once the list is
      exhausted);
    - [trace] records the events of the run, oldest first. *)
Record State : Type := mkState {
  packet : PacketComm;
  rpi_packet : PacketComm;
  kill_channel : bool;
  main_queue : list PacketComm;
  rfm23_queue : list PacketComm;
  pdu_queue : list PacketComm;
  rpi_queue : list PacketComm;
  thread_list : list thread_struct;
  deploymentmode : bool;
  deploymentbeacon : elapsedMillis;
  uptime : elapsedMillis;
  pins : gmap Z bool;
  millis : Z;
  bus_voltage : PrimFloat.float;
  addThread_ret : list Z;
  trace : list Event
}.

Definition set_packet (v : PacketComm) (s : State) : State :=
  mkState v (rpi_packet s) (kill_channel s) (main_queue s) (rfm23_queue s)
    (pdu_queue s) (rpi_queue s) (thread_list s) (deploymentmode s)
    (deploymentbeacon s) (uptime s) (pins s) (millis s) (bus_voltage s)
    (addThread_ret s) (trace s).

Definition set_rpi_packet (v : PacketComm) (s : State) : State :=
  mkState (packet s) v (kill_channel s) (main_queue s) (rfm23_queue s)
    (pdu_queue s) (rpi_queue s) (thread_list s) (deploymentmode s)
    (deploymentbeacon s) (uptime s) (pins s) (millis s) (bus_voltage s)
    (addThread_ret s) (trace s).

Definition set_kill_channel (v : bool) (s : State) : State :=
  mkState (packet s) (rpi_packet s) v (main_queue s) (rfm23_queue s)
    (pdu_queue s) (rpi_queue s) (thread_list s) (deploymentmode s)
    (deploymentbeacon s) (uptime s) (pins s) (millis s) (bus_voltage s)
    (addThread_ret s) (trace s).

Definition set_main_queue (v : list PacketComm) (s : State) : State :=
  mkState (packet s) (rpi_packet s) (kill_channel s) v (rfm23_queue s)
    (pdu_queue s) (rpi_queue s) (thread_list s) (deploymentmode s)
    (deploymentbeacon s) (uptime s) (pins s) (millis s) (bus_voltage s)
    (addThread_ret s) (trace s).

Definition set_rfm23_queue (v : list PacketComm) (s : State) : State :=
  mkState (packet s) (rpi_packet s) (kill_channel s) (main_queue s) v
    (pdu_queue s) (rpi_queue s) (thread_list s) (deploymentmode s)
    (deploymentbeacon s) (uptime s) (pins s) (millis s) (bus_voltage s)
    (addThread_ret s) (trace s).

Definition set_pdu_queue (v : list PacketComm) (s : State) : State :=
  mkState (packet s) (rpi_packet s) (kill_channel s) (main_queue s)
    (rfm23_queue s) v (rpi_queue s) (thread_list s) (deploymentmode s)
    (deploymentbeacon s) (uptime s) (pins s) (millis s) (bus_voltage s)
    (addThread_ret s) (trace s).

Definition set_rpi_queue (v : list PacketComm) (s : State) : State :=
  mkState (packet s) (rpi_packet s) (kill_channel s) (main_queue s)
    (rfm23_queue s) (pdu_queue s) v (thread_list s) (deploymentmode s)
    (deploymentbeacon s) (uptime s) (pins s) (millis s) (bus_voltage s)
    (addThread_ret s) (trace s).

Definition set_thread_list (v : list thread_struct) (s : State) : State :=
  mkState (packet s) (rpi_packet s) (kill_channel s) (main_queue s)
    (rfm23_queue s) (pdu_queue s) (rpi_queue s) v (deploymentmode s)
    (deploymentbeacon s) (uptime s) (pins s) (millis s) (bus_voltage s)
    (addThread_ret s) (trace s).

Definition set_deploymentbeacon (v : elapsedMillis) (s : State) : State :=
  mkState (packet s) (rpi_packet s) (kill_channel s) (main_queue s)
    (rfm23_queue s) (pdu_queue s) (rpi_queue s) (thread_list s)
    (deploymentmode s) v (uptime s) (pins s) (millis s) (bus_voltage s)
    (addThread_ret s) (trace s).

Definition set_pins (v : gmap Z bool) (s : State) : State :=
  mkState (packet s) (rpi_packet s) (kill_channel s) (main_queue s)
    (rfm23_queue s) (pdu_queue s) (rpi_queue s) (thread_list s)
    (deploymentmode s) (deploymentbeacon s) (uptime s) v (millis s)
    (bus_voltage s) (addThread_ret s) (trace s).

Definition set_millis (v : Z) (s : State) : State :=
  mkState (packet s) (rpi_packet s) (kill_channel s) (main_queue s)
    (rfm23_queue s) (pdu_queue s) (rpi_queue s) (thread_list s)
    (deploymentmode s) (deploymentbeacon s) (uptime s) (pins s) v
    (bus_voltage s) (addThread_ret s) (trace s).

Definition set_addThread_ret (v : list Z) (s : State) : State :=
  mkState (packet s) (rpi_packet s) (kill_channel s) (main_queue s)
    (rfm23_queue s) (pdu_queue s) (rpi_queue s) (thread_list s)
    (deploymentmode s) (deploymentbeacon s) (uptime s) (pins s) (millis s)
    (bus_voltage s) v (trace s) .

Definition set_trace (v : list Event) (s : State) : State :=
  mkState (packet s) (rpi_packet s) (kill_channel s) (main_queue s)
    (rfm23_queue s) (pdu_queue s) (rpi_queue s) (thread_list s)
    (deploymentmode s) (deploymentbeacon s) (uptime s) (pins s) (millis s)
    (bus_voltage s) (addThread_ret s) v.

(** ** Declarations that the two source files use but do not contain *)

(** The enumerators of [NODES], [Channels::Channel_ID] and
    [Devices::PDU::PDU_SW], the pin macro [UART6_RX] and three external
    routines are declared in headers outside these files; the development
    is parametric in them.
    - [SLIPPacketize] is the framing method of [PacketComm]: it reports
      success and gives the bytes that [packetized] holds afterwards.
    - [kill_thread] is the channel helper that asks the scheduler to end
      the thread of a channel; it works on the thread list and reports
      success.
    - [read_devices] stands for the sensor drivers enabled by the build
      flags: given the uptime in milliseconds it returns the beacon
      packets their [read] calls build. *)
Class Platform : Type := {
  GROUND_NODE_ID : Z;
  TEENSY_NODE_ID : Z;
  RPI_NODE_ID    : Z;
  RFM23_CHANNEL  : Z;
  RPI_CHANNEL    : Z;
  PDU_SW_RPI     : Z;
  PDU_SW_All     : Z;
  UART6_RX       : Z;
  SLIPPacketize  : PacketComm -> bool * list Z;
  kill_thread    : Z -> list thread_struct -> bool * list thread_struct;
  read_devices   : Z -> list PacketComm
}.

(** ** Queues *)

(** Modelled from the spec: [PullQueue] and [PushQueue] are defined in the
    helpers, not in these files.  Section 4.1: push appends under the lock,
    try-pop removes and returns the oldest packet or signals "empty". *)
Definition PullQueue (queue : list PacketComm)
  : option (PacketComm * list PacketComm) :=
  match queue with
  | [] => None
  | pkt :: rest => Some (pkt, rest)
  end.

Definition PushQueue (pkt : PacketComm) (queue : list PacketComm)
  : list PacketComm :=
  queue ++ [pkt].

(** Modelled from the spec: the [route_packet_to_*] helpers are defined
    outside these files.  Section 4.3: forwarding a packet enqueues it on
    the destination channel's outbound queue. *)
Definition route_packet_to_rfm23 (pkt : PacketComm) (s : State) : State :=
  set_rfm23_queue (PushQueue pkt (rfm23_queue s)) s.

Definition route_packet_to_pdu (pkt : PacketComm) (s : State) : State :=
  set_pdu_queue (PushQueue pkt (pdu_queue s)) s.

Definition route_packet_to_rpi (pkt : PacketComm) (s : State) : State :=
  set_rpi_queue (PushQueue pkt (rpi_queue s)) s.

(** ** Board primitives *)

Definition log (e : Event) (s : State) : State :=
  set_trace (trace s ++ [e]) s.

(** [digitalRead(pin)]: the current level of the pin. *)
Definition digitalRead (pin : Z) (s : State) : bool :=
  default false (pins s !! pin).

(** [digitalWrite(pin, level)]. *)
Definition digitalWrite (pin : Z) (level : bool) (s : State) : State :=
  set_pins (<[pin := level]> (pins s)) (log (EvDigitalWrite pin level) s).

(** [threads.delay(ms)]: the calling thread sleeps; the clock moves on by
    the requested time. *)
Definition threads_delay (ms : Z) (s : State) : State :=
  set_millis (u32 (millis s + ms)) (log (EvDelay ms) s).

(** [threads.addThread(f)]: the id of the new thread, or -1. *)
Definition threads_addThread (s : State) : Z * State :=
  match addThread_ret s with
  | [] => (-1, s)
  | id :: rest => (id, set_addThread_ret rest s)
  end.

(** Reading an [elapsedMillis] gives [millis() - ms] as an
    [unsigned long]. *)
Definition elapsed (t : elapsedMillis) (s : State) : Z :=
  u32 (millis s - t).

(** [const unsigned long readInterval = 20000; // Testing] *)
Definition readInterval : Z := 20000.

(** ** [main.cpp] *)

Section Router.
Context `{Platform}.

Definition upd_packet (f : PacketComm -> PacketComm) (s : State) : State :=
  set_packet (f (packet s)) s.

Definition route_packet_to_ground (s : State) : State :=
  if chanout (header (packet s)) =? RFM23_CHANNEL
  then route_packet_to_rfm23 (packet s) s
  else s.

Definition update_pdu_switches (s : State) : State :=
  let s := upd_packet (set_type CommandEpsSwitchStatus) s in
  let s := upd_packet (set_nodeorig (u8 GROUND_NODE_ID)) s in
  let s := upd_packet (set_nodedest (u8 TEENSY_NODE_ID)) s in
  let s := upd_packet (set_data []) s in
  let s := upd_packet (fun p => set_data (push_back PDU_SW_All (data p)) p) s in
  route_packet_to_pdu (packet s) s.

Definition enable_rpi (s : State) : State :=
  let s := digitalWrite (pin_number RPI_ENABLE) true s in
  let '(thread_id, s) := threads_addThread s in
  if thread_id =? -1 then s
  else set_thread_list (thread_list s ++ [mkThread thread_id RPI_CHANNEL]) s.

Definition ensure_rpi_is_powered (s : State) : State :=
  if negb (digitalRead (u8 UART6_RX) s) then
    let curr_V := bus_voltage s in
    if PrimFloat.leb 7.0%float curr_V then
      let s := enable_rpi s in
      threads_delay 5000 s
    else update_pdu_switches s
  else s.

Definition send_pong_reply (s : State) : State :=
  let s := upd_packet (fun p => set_nodedest (nodeorig (header p)) p) s in
  let s := upd_packet (set_nodeorig (u8 TEENSY_NODE_ID)) s in
  let s := upd_packet (set_type DataObcPong) s in
  let s := upd_packet (fun p => set_data (resize 0 (data p)) p) s in
  let s := fold_left
             (fun s c =>
                upd_packet (fun p => set_data (push_back c (data p)) p) s)
             (c_str "Pong") s in
  route_packet_to_ground s.

Definition report_rpi_enabled (s : State) : State :=
  let s := upd_packet (fun p => set_data (resize 1 (data p)) p) s in
  let level := Z.b2z (digitalRead (pin_number RPI_ENABLE) s) in
  let s := upd_packet (fun p => set_data (push_back level (data p)) p) s in
  let s := upd_packet (set_type DataEpsResponse) s in
  let s := upd_packet (fun p => set_nodedest (nodeorig (header p)) p) s in
  let s := upd_packet (set_nodeorig (u8 TEENSY_NODE_ID)) s in
  route_packet_to_rfm23 (packet s) s.

(** Modelled from the spec: the sensor drivers are external collaborators.
    Section 2: the beacon generator polls them and emits their telemetry
    packets into the routing path, that is onto the central queue. *)
Definition beacon_artemis_devices (s : State) : State :=
  fold_left (fun s pkt => set_main_queue (PushQueue pkt (main_queue s)) s)
            (read_devices (elapsed (uptime s) s)) s.

Definition beacon_if_deployed (s : State) : State :=
  if deploymentmode s then
    if readInterval <=? elapsed (deploymentbeacon s) s then
      let s := beacon_artemis_devices s in
      let s := update_pdu_switches s in
      set_deploymentbeacon (millis s) s
    else s
  else s.

(** The body of [route_packets] once [PullQueue] has filled [packet].
    Indexing [packet.data] past its end is undefined behaviour: the result
    is [None]. *)
Definition dispatch (s : State) : option State :=
  let hdr := header (packet s) in
  if nodedest hdr =? u8 GROUND_NODE_ID then
    Some (route_packet_to_ground s)
  else if nodedest hdr =? u8 RPI_NODE_ID then
    let s := ensure_rpi_is_powered s in
    Some (route_packet_to_rpi (packet s) s)
  else if nodedest hdr =? u8 TEENSY_NODE_ID then
    match type hdr with
    | CommandObcPing => Some (send_pong_reply s)
    | CommandEpsCommunicate => Some (route_packet_to_pdu (packet s) s)
    | CommandEpsSwitchName =>
        switchid ← data (packet s) !! 0%nat;
        if switchid =? PDU_SW_RPI then
          arg1 ← data (packet s) !! 1%nat;
          if arg1 =? 0 then Some (route_packet_to_rpi (packet s) s)
          else
            arg2 ← data (packet s) !! 2%nat;
            if arg2 =? 1 then
              let s := enable_rpi s in
              Some (threads_delay 5000 s)
            else Some (ensure_rpi_is_powered s)
        else Some (route_packet_to_pdu (packet s) s)
    | CommandEpsSwitchStatus =>
        switchid ← data (packet s) !! 0%nat;
        if switchid =? PDU_SW_RPI then Some (report_rpi_enabled s)
        else Some (route_packet_to_pdu (packet s) s)
    | CommandObcSendBeacon =>
        let s := beacon_artemis_devices s in
        Some (update_pdu_switches s)
    | _ => Some s
    end
  else Some s.

Definition route_packets (s : State) : option State :=
  match PullQueue (main_queue s) with
  | Some (pkt, rest) => dispatch (set_packet pkt (set_main_queue rest s))
  | None => Some s
  end.

(** [loop()] of [main.cpp], built without [TESTS]; [gps.update()] only
    talks to the GPS driver. *)
Definition loop (s : State) : option State :=
  let s := beacon_if_deployed s in
  s ← route_packets s;
  Some (threads_delay 100 s).

End Router.

(** ** [channels/rpi_channel.cpp], namespace [Artemis::Channels::RPI] *)

Module RPI.
Section Channel.
Context `{Platform}.

Definition upd_packet (f : PacketComm -> PacketComm) (s : State) : State :=
  set_rpi_packet (f (rpi_packet s)) s.

(** A failed [SLIPPacketize] is only reported on the debug port; the bytes
    then found in [packet.packetized] are written all the same, and a
    failed [Serial2.write] is only reported too. *)
Definition send_to_pi (s : State) : State :=
  let s := upd_packet (fun p => set_packetized (snd (SLIPPacketize p)) p) s in
  fold_left (fun s b => log (EvSerial2Write b) s)
            (packetized (rpi_packet s)) s.

(** [void receive_from_pi() {}] *)
Definition receive_from_pi (s : State) : State := s.

(** [while (!rpi_queue.empty()) rpi_queue.pop_front();] *)
Fixpoint pop_all (queue : list PacketComm) : list PacketComm :=
  match queue with
  | [] => []
  | _ :: rest => pop_all rest
  end.

Definition shut_down_pi (s : State) : State :=
  let s := upd_packet (set_type CommandObcHalt) s in
  let s := send_to_pi s in
  let s := threads_delay 20000 s in
  let s := digitalWrite (pin_number RPI_ENABLE) false s in
  let s := set_rpi_queue (pop_all (rpi_queue s)) s in
  let '(_, threads) := kill_thread RPI_CHANNEL (thread_list s) in
  let s := set_thread_list threads s in
  set_kill_channel true s.

Definition handle_queue (s : State) : option State :=
  match PullQueue (rpi_queue s) with
  | Some (pkt, rest) =>
      let s := set_rpi_packet pkt (set_rpi_queue rest s) in
      match type (header (rpi_packet s)) with
      | CommandEpsSwitchName =>
          switchid ← data (rpi_packet s) !! 0%nat;
          if switchid =? PDU_SW_RPI then
            arg1 ← data (rpi_packet s) !! 1%nat;
            if arg1 =? 0 then Some (shut_down_pi s) else Some s
          else Some s
      | _ => Some (send_to_pi s)
      end
  | None => Some s
  end.

(** How a bounded run of the channel's [while (true)] ends. *)
Inductive run : Type :=
  | Returned (s : State)   (* the [return] after the flag test was reached *)
  | Running (s : State)    (* still looping when the step budget ran out *)
  | Undefined.             (* a payload was indexed past its end *)

(** [loop()]: at most [fuel] iterations of the [while (true)] body. *)
Fixpoint loop (fuel : nat) (s : State) : run :=
  match fuel with
  | O => Running s
  | S fuel' =>
      match handle_queue s with
      | None => Undefined
      | Some s =>
          let s := receive_from_pi s in
          let s := threads_delay 100 s in
          if kill_channel s then Returned s else loop fuel' s
      end
  end.

End Channel.
End RPI.

(** ** A bench configuration

    A concrete platform and concrete packets on which the definitions are
    evaluated. *)

Definition bench : Platform := {|
  GROUND_NODE_ID := 1;
  TEENSY_NODE_ID := 2;
  RPI_NODE_ID    := 3;
  RFM23_CHANNEL  := 1;
  RPI_CHANNEL    := 3;
  PDU_SW_RPI     := 14;
  PDU_SW_All     := 1;
  UART6_RX       := 25;
  SLIPPacketize  := fun p => (true, 192 :: data p ++ [192]);
  kill_thread    := fun ch threads =>
    (false, threads);
  read_devices   := fun _ => []
|}.

Definition bench_packet (t : TypeId) (orig dest : Z) (payload : list Z)
  : PacketComm :=
  mkPacket (mkHeader t orig dest 0 1) payload [].

Definition bench_board (volts : float) : State := {|
  packet := bench_packet (OtherTypeId 0) 0 0 [];
  rpi_packet := bench_packet (OtherTypeId 0) 0 0 [];
  kill_channel := false;
  main_queue := [];
  rfm23_queue := [];
  pdu_queue := [];
  rpi_queue := [];
  thread_list := [];
  deploymentmode := true;
  deploymentbeacon := 0;
  uptime := 0;
  pins := ∅;
  millis := 0;
  bus_voltage := volts;
  addThread_ret := [2; 3; 4];
  trace := []
|}.

Definition bench_state : State := bench_board 8.0%float.

(** A ping, an RPi switch command with the given argument bytes, an RPi
    switch-status query and a send-beacon command, all from ground (node 1)
    to the flight computer (node 2). *)
Definition bench_ping : PacketComm :=
  bench_packet CommandObcPing 1 2 [].

Definition bench_switch (args : list Z) : PacketComm :=
  bench_packet CommandEpsSwitchName 1 2 (14 :: args).

Definition bench_status_query : PacketComm :=
  bench_packet CommandEpsSwitchStatus 1 2 [14].

Definition bench_send_beacon : PacketComm :=
  bench_packet CommandObcSendBeacon 1 2 [].

(** A packet that the RPi channel forwards to the RPi. *)
Definition bench_data (b : Z) : PacketComm :=
  bench_packet (OtherTypeId 40) 1 3 [b].

(** The bench state with the RPi enable line HIGH. *)
Definition bench_powered : State :=
  set_pins {[ pin_number RPI_ENABLE := true ]} bench_state.

(** The RPi channel's queue holding a switch command for the RPi with the
    given argument bytes, followed by three data packets. *)
Definition bench_rpi_queue (args : list Z) : State :=
  set_rpi_queue
    [bench_switch args; bench_data 1; bench_data 2; bench_data 3]
    bench_powered.

(** The kill flag already set, and one data packet waiting. *)
Definition bench_killed : State :=
  set_kill_channel true (set_rpi_queue [bench_data 7] bench_state).

(** ** Vocabulary of the statements *)

Section Vocabulary.
Context `{Platform}.

(** The flight computer's node id differs, as a header byte, from the two
    ids that [route_packets] tests before it. *)
Definition teensy_id_distinct : Prop :=
  u8 TEENSY_NODE_ID <> u8 GROUND_NODE_ID /\
  u8 TEENSY_NODE_ID <> u8 RPI_NODE_ID.

(** The packet that asks the PDU channel for the state of all switches. *)
Definition is_pdu_refresh (pkt : PacketComm) : Prop :=
  type (header pkt) = CommandEpsSwitchStatus /\
  nodeorig (header pkt) = u8 GROUND_NODE_ID /\
  nodedest (header pkt) = u8 TEENSY_NODE_ID /\
  data pkt = [u8 PDU_SW_All].

(** The presence signal of the RPi link reads "absent". *)
Definition rpi_absent (s : State) : Prop :=
  digitalRead (u8 UART6_RX) s = false.

(** Number of entries of the thread list that belong to the RPi channel. *)
Definition rpi_entries (threads : list thread_struct) : nat :=
  length (List.filter (fun t => channel_id t =? RPI_CHANNEL) threads).

(** One cycle of the main loop in which the router is handed [pkt] instead
    of pulling it: the beacon check, then the dispatch of [pkt] with the
    head of the central queue removed, then the 100 ms yield. *)
Definition cycle_on (pkt : PacketComm) (s : State) : option State :=
  let s := beacon_if_deployed s in
  s ← dispatch (set_packet pkt (set_main_queue (tail (main_queue s)) s));
  Some (threads_delay 100 s).

(** The switch command on which the RPi channel shuts the RPi down. *)
Definition is_rpi_off_command (pkt : PacketComm) : Prop :=
  type (header pkt) = CommandEpsSwitchName /\
  data pkt !! 0%nat = Some PDU_SW_RPI /\
  data pkt !! 1%nat = Some 0.

(** The bytes that [send_to_pi] writes for the halt command made from
    [pkt]. *)
Definition halt_frame (pkt : PacketComm) : list Z :=
  snd (SLIPPacketize (set_type CommandObcHalt pkt)).

End Vocabulary.

(** Iterating a step that may be undefined. *)
Fixpoint iterate (n : nat) (step : State -> option State) (s : State)
  : option State :=
  match n with
  | O => Some s
  | S n' => s' ← step s; iterate n' step s'
  end.

(** Feeding the elements of a list, in order, to a handler that may be
    undefined. *)
Fixpoint feed {A : Type} (handler : A -> State -> option State)
    (xs : list A) (s : State) : option State :=
  match xs with
  | [] => Some s
  | x :: xs' => s' ← handler x s; feed handler xs' s'
  end.

(** ** More of [main.cpp] and of the RPi channel *)

Section Setup.
Context `{Platform}.

(** [Channels::Channel_ID::PDU_CHANNEL], declared with the other channel
    ids. *)
Variable PDU_CHANNEL : Z.

(** [setup_threads()]: the result of [threads.setSliceMillis] is only
    reported.  The commented-out lines that force the RPi on are not
    part of the program. *)
Definition setup_threads (s : State) : State :=
  let '(thread_id, s) := threads_addThread s in
  let s :=
    if thread_id =? -1 then s
    else set_thread_list
           (thread_list s ++ [mkThread thread_id RFM23_CHANNEL]) s in
  let '(thread_id, s) := threads_addThread s in
  if thread_id =? -1 then s
  else set_thread_list (thread_list s ++ [mkThread thread_id PDU_CHANNEL]) s.

End Setup.

(** [rpi_channel()]: [setup()] opens [Serial2] at 9600 baud, which the
    state does not record, and then [loop()] runs. *)
Definition rpi_channel `{Platform} (fuel : nat) (s : State) : RPI.run :=
  RPI.loop fuel s.

(** ** Vocabulary of the further statements *)

Section MoreVocabulary.
Context `{Platform}.

(** What powering the RPi on adds to the trace in the router: the enable
    line is driven HIGH, then the router sleeps for the boot time. *)
Definition power_on_events : list Event :=
  [EvDigitalWrite (pin_number RPI_ENABLE) true; EvDelay 5000].

(** A channel queue after a step: as before, or with one packet appended. *)
Definition grown_by_at_most_one (before after : list PacketComm) : Prop :=
  after = before \/ exists pkt, after = before ++ [pkt].

(** The packet is addressed to the flight computer and reaches the third
    test of [route_packets]. *)
Definition for_teensy (pkt : PacketComm) : Prop :=
  nodedest (header pkt) <> u8 GROUND_NODE_ID /\
  nodedest (header pkt) <> u8 RPI_NODE_ID /\
  nodedest (header pkt) = u8 TEENSY_NODE_ID.

(** The payloads on which the router indexes [packet.data] past its end. *)
Definition router_reads_past_end (pkt : PacketComm) : Prop :=
  for_teensy pkt /\
  ((type (header pkt) = CommandEpsSwitchStatus /\ data pkt = []) \/
   (type (header pkt) = CommandEpsSwitchName /\
    (data pkt = [] \/
     data pkt = [PDU_SW_RPI] \/
     exists arg1, arg1 <> 0 /\ data pkt = [PDU_SW_RPI; arg1]))).

(** The payloads on which the RPi channel indexes [packet.data] past its
    end. *)
Definition channel_reads_past_end (pkt : PacketComm) : Prop :=
  type (header pkt) = CommandEpsSwitchName /\
  (data pkt = [] \/ data pkt = [PDU_SW_RPI]).

(** Everything one dispatch can do to the state outside the packet buffer
    and the central queue: some fields are never written; either nothing
    happens on the board or the RPi is powered on; each channel queue
    receives at most one packet. *)
Definition router_effects (s s' : State) : Prop :=
  (kill_channel s' = kill_channel s /\
   rpi_packet s' = rpi_packet s /\
   deploymentmode s' = deploymentmode s /\
   deploymentbeacon s' = deploymentbeacon s /\
   uptime s' = uptime s /\
   bus_voltage s' = bus_voltage s) /\
  ((trace s' = trace s /\ pins s' = pins s /\ millis s' = millis s /\
    thread_list s' = thread_list s /\ addThread_ret s' = addThread_ret s) \/
   (trace s' = trace s ++ power_on_events /\
    pins s' = <[pin_number RPI_ENABLE := true]> (pins s) /\
    millis s' = u32 (millis s + 5000) /\
    (thread_list s' = thread_list s \/
     exists id, id <> -1 /\
       thread_list s' = thread_list s ++ [mkThread id RPI_CHANNEL]))) /\
  grown_by_at_most_one (rfm23_queue s) (rfm23_queue s') /\
  grown_by_at_most_one (pdu_queue s) (pdu_queue s') /\
  grown_by_at_most_one (rpi_queue s) (rpi_queue s').

(** What the RPi channel writes and waits for one forwarded packet. *)
Definition forwarded (pkt : PacketComm) : list Event :=
  map EvSerial2Write (snd (SLIPPacketize pkt)) ++ [EvDelay 100].

End MoreVocabulary.

(** ** More bench inputs *)

(** A telemetry packet from the flight computer for ground (node 1) with
    the given [chanout]. *)
Definition bench_telemetry (out : Z) : PacketComm :=
  mkPacket (mkHeader (OtherTypeId 40) 2 1 0 out) [5] [].

(** The bench with the given packets on the central queue. *)
Definition bench_with (volts : float) (queue : list PacketComm) : State :=
  set_main_queue queue (bench_board volts).

(** The same, with the presence signal of the RPi link reading HIGH. *)
Definition bench_present (queue : list PacketComm) : State :=
  set_pins {[ 25 := true ]} (set_main_queue queue bench_state).

(** The beacon timer was reset 1000 ms before the clock wrapped, and the
    clock now reads 19500. *)
Definition bench_wrapped : State :=
  set_deploymentbeacon (2 ^ 32 - 1000) (set_millis 19500 bench_state).

(** The kill flag is set and a switch-on command for the RPi is on the
    central queue. *)
Definition bench_rearm : State :=
  set_main_queue [bench_switch [1; 1]] bench_killed.

Arguments u8 : simpl never.
Arguments u32 : simpl never.

(** * Properties of the router *)

Section RouterFacts.
Context `{Platform}.

Lemma dispatch_to_teensy (s : State) :
  teensy_id_distinct ->
  nodedest (header (packet s)) = u8 TEENSY_NODE_ID ->
  dispatch s =
    match type (header (packet s)) with
    | CommandObcPing => Some (send_pong_reply s)
    | CommandEpsCommunicate => Some (route_packet_to_pdu (packet s) s)
    | CommandEpsSwitchName =>
        switchid ← data (packet s) !! 0%nat;
        if switchid =? PDU_SW_RPI then
          arg1 ← data (packet s) !! 1%nat;
          if arg1 =? 0 then Some (route_packet_to_rpi (packet s) s)
          else
            arg2 ← data (packet s) !! 2%nat;
            if arg2 =? 1 then Some (threads_delay 5000 (enable_rpi s))
            else Some (ensure_rpi_is_powered s)
        else Some (route_packet_to_pdu (packet s) s)
    | CommandEpsSwitchStatus =>
        switchid ← data (packet s) !! 0%nat;
        if switchid =? PDU_SW_RPI then Some (report_rpi_enabled s)
        else Some (route_packet_to_pdu (packet s) s)
    | CommandObcSendBeacon =>
        Some (update_pdu_switches (beacon_artemis_devices s))
    | _ => Some s
    end.
Proof.
  intros [Hg Hr] Hd. unfold dispatch. rewrite Hd.
  apply Z.eqb_neq in Hg, Hr. rewrite Hg, Hr, Z.eqb_refl. reflexivity.
Qed.

Lemma route_packets_pull
    (s : State) (pkt : PacketComm) (rest : list PacketComm) :
  main_queue s = pkt :: rest ->
  route_packets s = dispatch (set_packet pkt (set_main_queue rest s)).
Proof. intros Hq. unfold route_packets. rewrite Hq. reflexivity. Qed.

(** C1. A ping addressed to the flight computer is answered by exactly one
    pong: the reply has type pong, goes back to the ping's origin, names
    the flight computer as its origin and carries the payload "Pong"; it is
    appended to the radio channel's queue when the ping's [chanout] selects
    the radio channel, and no other channel queue changes. *)
Theorem ping_is_answered_by_one_pong
    (s : State) (P : PacketComm) (rest : list PacketComm) :
  teensy_id_distinct ->
  main_queue s = P :: rest ->
  nodedest (header P) = u8 TEENSY_NODE_ID ->
  type (header P) = CommandObcPing ->
  exists s' reply,
    route_packets s = Some s' /\
    packet s' = reply /\
    type (header reply) = DataObcPong /\
    nodedest (header reply) = nodeorig (header P) /\
    nodeorig (header reply) = u8 TEENSY_NODE_ID /\
    chanout (header reply) = chanout (header P) /\
    data reply = c_str "Pong" /\
    main_queue s' = rest /\
    (chanout (header P) = RFM23_CHANNEL ->
       rfm23_queue s' = rfm23_queue s ++ [reply]) /\
    (chanout (header P) <> RFM23_CHANNEL ->
       rfm23_queue s' = rfm23_queue s) /\
    pdu_queue s' = pdu_queue s /\
    rpi_queue s' = rpi_queue s.
Proof.
  intros Hid Hq Hd Ht.
  rewrite (route_packets_pull _ _ _ Hq).
  rewrite dispatch_to_teensy by (simpl; assumption).
  simpl packet. rewrite Ht.
  eexists; eexists; split; [reflexivity|].
  unfold send_pong_reply, route_packet_to_ground. cbn.
  destruct (chanout (header P) =? RFM23_CHANNEL) eqn:Hc; cbn.
  - apply Z.eqb_eq in Hc. repeat split; try reflexivity; congruence.
  - apply Z.eqb_neq in Hc. repeat split; try reflexivity; congruence.
Qed.

(** C3. A switch command for the RPi with argument byte 0, addressed to the
    flight computer, is appended as it is to the RPi channel's queue; apart
    from taking the packet out of the central queue into its buffer the
    router changes nothing (no pin, thread, trace or other queue). *)
Theorem rpi_switch_off_is_forwarded_verbatim
    (s : State) (P : PacketComm) (rest : list PacketComm) :
  teensy_id_distinct ->
  main_queue s = P :: rest ->
  nodedest (header P) = u8 TEENSY_NODE_ID ->
  type (header P) = CommandEpsSwitchName ->
  data P !! 0%nat = Some PDU_SW_RPI ->
  data P !! 1%nat = Some 0 ->
  exists s',
    route_packets s = Some s' /\
    s' = set_rpi_queue (rpi_queue s ++ [P])
           (set_packet P (set_main_queue rest s)) /\
    rpi_queue s' = rpi_queue s ++ [P] /\
    rfm23_queue s' = rfm23_queue s /\
    pdu_queue s' = pdu_queue s /\
    pins s' = pins s /\
    thread_list s' = thread_list s /\
    trace s' = trace s.
Proof.
  intros Hid Hq Hd Ht H0 H1.
  rewrite (route_packets_pull _ _ _ Hq).
  rewrite dispatch_to_teensy by (simpl; assumption).
  simpl packet. rewrite Ht, H0. simpl. rewrite Z.eqb_refl, H1. simpl.
  eexists. split; [reflexivity|]. repeat split.
Qed.

Lemma resize_1_head (d : list Z) (b : Z) :
  d !! 0%nat = Some b -> resize 1 d = [b].
Proof.
  destruct d as [|x d]; simpl; [discriminate|].
  intros [= ->]. unfold resize. simpl. destruct d; reflexivity.
Qed.

Lemma u8_b2z (b : bool) : u8 (Z.b2z b) = Z.b2z b.
Proof. destruct b; reflexivity. Qed.

(** C5. A switch-status query for the RPi, addressed to the flight
    computer, is answered by one packet appended to the radio channel's
    queue: type EPS data response, sent back to the query's origin, with
    the flight computer as origin, and with payload [switch id; level]
    where level is 1 when the enable line reads HIGH and 0 when it reads
    LOW. *)
Theorem rpi_status_reply_reports_enable_line
    (s : State) (P : PacketComm) (rest : list PacketComm) :
  teensy_id_distinct ->
  main_queue s = P :: rest ->
  nodedest (header P) = u8 TEENSY_NODE_ID ->
  type (header P) = CommandEpsSwitchStatus ->
  data P !! 0%nat = Some PDU_SW_RPI ->
  exists s' reply,
    route_packets s = Some s' /\
    rfm23_queue s' = rfm23_queue s ++ [reply] /\
    type (header reply) = DataEpsResponse /\
    nodedest (header reply) = nodeorig (header P) /\
    nodeorig (header reply) = u8 TEENSY_NODE_ID /\
    data reply =
      [PDU_SW_RPI;
       if digitalRead (pin_number RPI_ENABLE) s then 1 else 0].
Proof.
  intros Hid Hq Hd Ht H0.
  rewrite (route_packets_pull _ _ _ Hq).
  rewrite dispatch_to_teensy by (simpl; assumption).
  simpl packet. rewrite Ht, H0. simpl. rewrite Z.eqb_refl.
  eexists; eexists; split; [reflexivity|].
  unfold report_rpi_enabled. cbn.
  rewrite (resize_1_head _ _ H0). unfold push_back. simpl.
  rewrite u8_b2z. unfold digitalRead. simpl.
  repeat split.
Qed.

(** The device poll only appends to the central queue. *)
Lemma push_all_main (pkts : list PacketComm) (s : State) :
  fold_left (fun s pkt => set_main_queue (PushQueue pkt (main_queue s)) s)
            pkts s
  = set_main_queue (main_queue s ++ pkts) s.
Proof.
  revert s. induction pkts as [|pkt pkts IH]; intros s; simpl.
  - rewrite app_nil_r. destruct s; reflexivity.
  - rewrite IH. unfold PushQueue. simpl. rewrite <- app_assoc.
    destruct s; reflexivity.
Qed.

Lemma beacon_artemis_devices_eq (s : State) :
  beacon_artemis_devices s
  = set_main_queue (main_queue s ++ read_devices (elapsed (uptime s) s)) s.
Proof. apply push_all_main. Qed.

Lemma update_pdu_switches_pushes_refresh (s : State) :
  exists pkt,
    is_pdu_refresh pkt /\
    pdu_queue (update_pdu_switches s) = pdu_queue s ++ [pkt].
Proof.
  eexists. split; [|reflexivity]. repeat split.
Qed.

(** C9. Every internally generated switch-status refresh is a packet of
    type switch-status query whose origin is the ground node id, whose
    destination is the flight computer and whose payload is the single
    byte "all switches"; it is appended to the PDU channel's queue.  This
    holds for [update_pdu_switches] itself and at its three call sites: the
    send-beacon command, the deployment beacon that is due, and the
    ensure-powered check that finds the RPi absent and the bus voltage
    below 7.0 V. *)
Theorem pdu_refresh_claims_ground_origin :
  teensy_id_distinct ->
  (forall s, exists pkt,
      is_pdu_refresh pkt /\
      pdu_queue (update_pdu_switches s) = pdu_queue s ++ [pkt]) /\
  (forall s P rest,
      main_queue s = P :: rest ->
      nodedest (header P) = u8 TEENSY_NODE_ID ->
      type (header P) = CommandObcSendBeacon ->
      exists s' pkt,
        route_packets s = Some s' /\ is_pdu_refresh pkt /\
        pdu_queue s' = pdu_queue s ++ [pkt]) /\
  (forall s,
      deploymentmode s = true ->
      readInterval <= elapsed (deploymentbeacon s) s ->
      exists pkt,
        is_pdu_refresh pkt /\
        pdu_queue (beacon_if_deployed s) = pdu_queue s ++ [pkt]) /\
  (forall s,
      rpi_absent s ->
      PrimFloat.leb 7.0%float (bus_voltage s) = false ->
      exists pkt,
        is_pdu_refresh pkt /\
        pdu_queue (ensure_rpi_is_powered s) = pdu_queue s ++ [pkt]).
Proof.
  intros Hid. split; [|split; [|split]].
  - apply update_pdu_switches_pushes_refresh.
  - intros s P rest Hq Hd Ht.
    rewrite (route_packets_pull _ _ _ Hq).
    rewrite dispatch_to_teensy by (simpl; assumption).
    simpl packet. rewrite Ht.
    eexists; eexists; split; [reflexivity|].
    rewrite beacon_artemis_devices_eq.
    split; [|reflexivity]. repeat split.
  - intros s Hm Hdue. unfold beacon_if_deployed. rewrite Hm.
    apply Z.leb_le in Hdue. rewrite Hdue.
    rewrite beacon_artemis_devices_eq.
    eexists. split; [|reflexivity]. repeat split.
  - intros s Habs Hlow. unfold ensure_rpi_is_powered.
    unfold rpi_absent in Habs. rewrite Habs, Hlow. simpl negb. cbv iota.
    apply update_pdu_switches_pushes_refresh.
Qed.

Lemma rpi_entries_snoc (threads : list thread_struct) (id : Z) :
  rpi_entries (threads ++ [mkThread id RPI_CHANNEL]) = S (rpi_entries threads).
Proof.
  unfold rpi_entries. rewrite List.filter_app, length_app. simpl.
  rewrite Z.eqb_refl. simpl. lia.
Qed.

Lemma ensure_rpi_present (s : State) :
  digitalRead (u8 UART6_RX) s = true -> ensure_rpi_is_powered s = s.
Proof. intros Hp. unfold ensure_rpi_is_powered. rewrite Hp. reflexivity. Qed.

(** C4, as the code has it.  A call of [ensure_rpi_is_powered] made while
    the presence signal reads absent and the bus voltage is at least 7.0 V
    leaves the enable line HIGH and, when the thread starts, appends one
    RPi channel entry to the thread list: the list then holds one entry
    more than before, hence exactly one if it held none.  When the thread
    does not start, the list is unchanged.  The call does not look for an
    entry that is already there; the only gate is the presence signal: a
    call made while it reads present changes nothing. *)
Theorem ensure_powered_registers_per_call (s : State) :
  rpi_absent s ->
  PrimFloat.leb 7.0%float (bus_voltage s) = true ->
  digitalRead (pin_number RPI_ENABLE) (ensure_rpi_is_powered s) = true /\
  (forall id rest,
      addThread_ret s = id :: rest -> id <> -1 ->
      thread_list (ensure_rpi_is_powered s)
        = thread_list s ++ [mkThread id RPI_CHANNEL] /\
      rpi_entries (thread_list (ensure_rpi_is_powered s))
        = S (rpi_entries (thread_list s)) /\
      (rpi_entries (thread_list s) = 0%nat ->
       rpi_entries (thread_list (ensure_rpi_is_powered s)) = 1%nat)) /\
  (addThread_ret s = [] \/ (exists rest, addThread_ret s = -1 :: rest) ->
   thread_list (ensure_rpi_is_powered s) = thread_list s) /\
  (forall s0,
      digitalRead (u8 UART6_RX) s0 = true -> ensure_rpi_is_powered s0 = s0).
Proof.
  intros Habs Hv. unfold rpi_absent in Habs.
  split; [|split; [|split]]; [| | |exact ensure_rpi_present];
    unfold ensure_rpi_is_powered; rewrite Habs, Hv; simpl negb;
    cbv iota zeta; unfold enable_rpi, threads_addThread;
    simpl addThread_ret.
  - destruct (addThread_ret s) as [|id rest]; simpl.
    + unfold digitalRead. simpl. rewrite lookup_insert_eq. reflexivity.
    + destruct (id =? -1); unfold digitalRead; simpl;
        rewrite lookup_insert_eq; reflexivity.
  - intros id rest Hret Hid. rewrite Hret. simpl.
    apply Z.eqb_neq in Hid. rewrite Hid. simpl.
    rewrite rpi_entries_snoc. repeat split. intros ->. reflexivity.
  - intros [Hret | [rest Hret]]; rewrite Hret; reflexivity.
Qed.

Lemma u32_elapsed_after (t d : Z) :
  0 <= d < 2 ^ 32 -> u32 (u32 (t + d) - t) = d.
Proof.
  intros Hd. unfold u32. rewrite Zminus_mod_idemp_l.
  replace (t + d - t) with d by lia. apply Z.mod_small. lia.
Qed.

(** C6. The deployment-beacon check changes nothing unless the satellite
    is in deployment mode and at least [readInterval] milliseconds have
    elapsed on the beacon timer since it was last reset.  When it does
    emit, it resets the timer, and any check made less than [readInterval]
    milliseconds later, the timer not having been touched, changes
    nothing: no packet is queued and no event happens. *)
Theorem deployment_beacon_once_per_interval :
  (forall s,
      deploymentmode s = false \/
      elapsed (deploymentbeacon s) s < readInterval ->
      beacon_if_deployed s = s) /\
  (forall s,
      deploymentmode s = true ->
      readInterval <= elapsed (deploymentbeacon s) s ->
      let s1 := beacon_if_deployed s in
      elapsed (deploymentbeacon s1) s1 = 0 /\
      forall s2 d,
        deploymentbeacon s2 = deploymentbeacon s1 ->
        0 <= d < readInterval ->
        millis s2 = u32 (millis s1 + d) ->
        beacon_if_deployed s2 = s2).
Proof.
  split.
  - intros s [Hm | Hlt]; unfold beacon_if_deployed.
    + rewrite Hm. reflexivity.
    + apply Z.leb_gt in Hlt. rewrite Hlt.
      destruct (deploymentmode s); reflexivity.
  - intros s Hm Hdue s1.
    assert (Hs1 : deploymentbeacon s1 = millis s /\ millis s1 = millis s).
    { subst s1. unfold beacon_if_deployed. rewrite Hm.
      apply Z.leb_le in Hdue. rewrite Hdue.
      rewrite beacon_artemis_devices_eq. split; reflexivity. }
    destruct Hs1 as [Hb Hc]. split.
    + unfold elapsed. rewrite Hb, Hc, Z.sub_diag. reflexivity.
    + intros s2 d Hb2 Hd Hc2. unfold beacon_if_deployed.
      unfold elapsed. rewrite Hb2, Hc2, Hb, Hc.
      rewrite u32_elapsed_after by (unfold readInterval in Hd; lia).
      destruct Hd as [_ Hd]. apply Z.leb_gt in Hd. rewrite Hd.
      destruct (deploymentmode s2); reflexivity.
Qed.

(** *** What the router does to the central queue *)

Lemma main_queue_enable_rpi (s : State) :
  main_queue (enable_rpi s) = main_queue s.
Proof.
  unfold enable_rpi, threads_addThread. simpl.
  destruct (addThread_ret s) as [|id rest]; simpl; [reflexivity|].
  destruct (id =? -1); reflexivity.
Qed.

Lemma main_queue_ensure_rpi_is_powered (s : State) :
  main_queue (ensure_rpi_is_powered s) = main_queue s.
Proof.
  unfold ensure_rpi_is_powered.
  destruct (digitalRead (u8 UART6_RX) s); simpl; [reflexivity|].
  destruct (PrimFloat.leb 7.0%float (bus_voltage s)); [|reflexivity].
  simpl. apply main_queue_enable_rpi.
Qed.

Lemma main_queue_route_packet_to_ground (s : State) :
  main_queue (route_packet_to_ground s) = main_queue s.
Proof.
  unfold route_packet_to_ground.
  destruct (chanout (header (packet s)) =? RFM23_CHANNEL); reflexivity.
Qed.

Lemma main_queue_send_pong_reply (s : State) :
  main_queue (send_pong_reply s) = main_queue s.
Proof.
  unfold send_pong_reply. rewrite main_queue_route_packet_to_ground.
  reflexivity.
Qed.

Lemma main_queue_beacon_if_deployed (s : State) :
  exists extra, main_queue (beacon_if_deployed s) = main_queue s ++ extra.
Proof.
  unfold beacon_if_deployed.
  destruct (deploymentmode s); [|exists []; symmetry; apply app_nil_r].
  destruct (readInterval <=? elapsed (deploymentbeacon s) s);
    [|exists []; symmetry; apply app_nil_r].
  rewrite beacon_artemis_devices_eq. eexists. reflexivity.
Qed.

Ltac kept_queue :=
  exists []; rewrite app_nil_r;
  first [ reflexivity
        | apply main_queue_route_packet_to_ground
        | apply main_queue_send_pong_reply
        | apply main_queue_ensure_rpi_is_powered
        | simpl; apply main_queue_enable_rpi
        | simpl; apply main_queue_ensure_rpi_is_powered ].

Lemma dispatch_appends (s s' : State) :
  dispatch s = Some s' ->
  exists extra, main_queue s' = main_queue s ++ extra.
Proof.
  unfold dispatch. intros Hd.
  destruct (nodedest (header (packet s)) =? u8 GROUND_NODE_ID);
    [injection Hd as <-; kept_queue|].
  destruct (nodedest (header (packet s)) =? u8 RPI_NODE_ID);
    [injection Hd as <-; kept_queue|].
  destruct (nodedest (header (packet s)) =? u8 TEENSY_NODE_ID);
    [|injection Hd as <-; kept_queue].
  destruct (type (header (packet s)));
    try (injection Hd as <-; kept_queue).
  - injection Hd as <-. rewrite beacon_artemis_devices_eq.
    eexists. reflexivity.
  - destruct (data (packet s) !! 0%nat) as [switchid|]; [|discriminate].
    simpl in Hd. destruct (switchid =? PDU_SW_RPI);
      [|injection Hd as <-; kept_queue].
    destruct (data (packet s) !! 1%nat) as [arg1|]; [|discriminate].
    simpl in Hd. destruct (arg1 =? 0); [injection Hd as <-; kept_queue|].
    destruct (data (packet s) !! 2%nat) as [arg2|]; [|discriminate].
    simpl in Hd. destruct (arg2 =? 1); injection Hd as <-; kept_queue.
  - destruct (data (packet s) !! 0%nat) as [switchid|]; [|discriminate].
    simpl in Hd. destruct (switchid =? PDU_SW_RPI);
      injection Hd as <-; kept_queue.
Qed.

(** A packet with at least three payload bytes is always dispatched
    without reading past the end of the payload. *)
Lemma dispatch_defined (s : State) :
  (3 <= length (data (packet s)))%nat -> is_Some (dispatch s).
Proof.
  intros Hlen. unfold dispatch.
  destruct (data (packet s)) as [|b0 [|b1 [|b2 more]]] eqn:Hdata;
    simpl in Hlen; try lia.
  repeat match goal with
         | |- is_Some (Some _) => eexists; reflexivity
         | |- context [if ?c then _ else _] => destruct c
         | |- context [match type ?h with _ => _ end] => destruct (type h)
         | _ => progress simpl
         end.
Qed.

Lemma loop_pops_at_most_one (s s' : State) :
  loop s = Some s' ->
  exists extra, main_queue s' = tail (main_queue s) ++ extra.
Proof.
  unfold loop, route_packets. intros Hl.
  destruct (main_queue s) as [|pkt rest] eqn:Hq; [eexists; reflexivity|].
  destruct (main_queue_beacon_if_deployed s) as [extra Hb].
  rewrite Hq in Hb. rewrite Hb in Hl. simpl in Hl.
  destruct (dispatch _) as [s1|] eqn:Hd; [|discriminate].
  simpl in Hl. injection Hl as <-.
  apply dispatch_appends in Hd. destruct Hd as [extra' Hd].
  simpl in *. rewrite Hd, <- app_assoc. eexists. reflexivity.
Qed.

Lemma loop_is_cycle_on_head
    (s : State) (pkt : PacketComm) (rest : list PacketComm) :
  main_queue s = pkt :: rest -> loop s = cycle_on pkt s.
Proof.
  intros Hq. unfold loop, cycle_on, route_packets.
  destruct (main_queue_beacon_if_deployed s) as [extra Hb].
  rewrite Hq in Hb. rewrite Hb. reflexivity.
Qed.

Lemma cycles_follow_queue_order (q : list PacketComm) :
  forall s rest,
    main_queue s = q ++ rest ->
    iterate (length q) loop s = feed cycle_on q s.
Proof.
  induction q as [|pkt q IH]; intros s rest Hq; [reflexivity|].
  simpl. rewrite <- (loop_is_cycle_on_head s pkt (q ++ rest) Hq).
  destruct (loop s) as [s1|] eqn:Hl; [|reflexivity].
  simpl. destruct (loop_pops_at_most_one _ _ Hl) as [extra Hs1].
  rewrite Hq in Hs1. simpl in Hs1. rewrite <- app_assoc in Hs1.
  exact (IH s1 _ Hs1).
Qed.

Lemma cycle_on_defined (pkt : PacketComm) (s : State) :
  (3 <= length (data pkt))%nat -> is_Some (cycle_on pkt s).
Proof.
  intros Hlen. unfold cycle_on.
  destruct (dispatch_defined
              (set_packet pkt
                 (set_main_queue (tail (main_queue (beacon_if_deployed s)))
                    (beacon_if_deployed s))) Hlen) as [s1 ->].
  eexists. reflexivity.
Qed.

Lemma feed_cycle_on_defined (q : list PacketComm) :
  Forall (fun pkt => (3 <= length (data pkt))%nat) q ->
  forall s, is_Some (feed cycle_on q s).
Proof.
  induction 1 as [|pkt q Hpkt _ IH]; intros s; simpl.
  - eexists. reflexivity.
  - destruct (cycle_on_defined pkt s Hpkt) as [s1 ->]. simpl. apply IH.
Qed.

(** C7. A cycle of the main loop removes at most the head of the central
    queue and leaves the packets behind it in place, in order; the packet
    dispatched is that head, and nothing is dispatched when the queue is
    empty.  With the packets [q] at the front of the queue, [length q]
    cycles handle exactly the packets of [q], one per cycle, in queue
    order; the cycles are all defined when each packet of [q] has at least
    three payload bytes. *)
Theorem router_handles_one_packet_per_cycle_in_order :
  (forall s s',
      loop s = Some s' ->
      exists extra, main_queue s' = tail (main_queue s) ++ extra) /\
  (forall s pkt rest,
      main_queue s = pkt :: rest ->
      route_packets s = dispatch (set_packet pkt (set_main_queue rest s))) /\
  (forall s, main_queue s = [] -> route_packets s = Some s) /\
  (forall q s rest,
      main_queue s = q ++ rest ->
      iterate (length q) loop s = feed cycle_on q s) /\
  (forall q s rest,
      main_queue s = q ++ rest ->
      Forall (fun pkt => (3 <= length (data pkt))%nat) q ->
      is_Some (iterate (length q) loop s)).
Proof.
  split; [exact loop_pops_at_most_one|].
  split; [exact route_packets_pull|].
  split; [intros s Hq; unfold route_packets; rewrite Hq; reflexivity|].
  split; [intros q; exact (cycles_follow_queue_order q)|].
  intros q s rest Hq Hwf.
  rewrite (cycles_follow_queue_order q s rest Hq).
  apply feed_cycle_on_defined. exact Hwf.
Qed.

End RouterFacts.

(** * Properties of the RPi channel *)

Section ChannelFacts.
Context `{Platform}.

Lemma write_all_trace (bytes : list Z) (s : State) :
  fold_left (fun s b => log (EvSerial2Write b) s) bytes s
  = set_trace (trace s ++ map EvSerial2Write bytes) s.
Proof.
  revert s. induction bytes as [|b bytes IH]; intros s; simpl.
  - rewrite app_nil_r. destruct s; reflexivity.
  - rewrite IH. unfold log. simpl. rewrite <- app_assoc.
    destruct s; reflexivity.
Qed.

Lemma send_to_pi_eq (s : State) :
  let frame := snd (SLIPPacketize (rpi_packet s)) in
  RPI.send_to_pi s
  = set_trace (trace s ++ map EvSerial2Write frame)
      (set_rpi_packet (set_packetized frame (rpi_packet s)) s).
Proof. unfold RPI.send_to_pi. rewrite write_all_trace. reflexivity. Qed.

Lemma pop_all_empty (queue : list PacketComm) : RPI.pop_all queue = [].
Proof. induction queue as [|pkt queue IH]; simpl; congruence. Qed.

Lemma handle_queue_off_command
    (s : State) (cmd : PacketComm) (rest : list PacketComm) :
  rpi_queue s = cmd :: rest ->
  is_rpi_off_command cmd ->
  RPI.handle_queue s
  = Some (RPI.shut_down_pi (set_rpi_packet cmd (set_rpi_queue rest s))).
Proof.
  intros Hq (Ht & H0 & H1). unfold RPI.handle_queue. rewrite Hq. simpl.
  rewrite Ht, H0. simpl. rewrite Z.eqb_refl, H1. reflexivity.
Qed.

Lemma shut_down_pi_fields (s : State) :
  let s' := RPI.shut_down_pi s in
  kill_channel s' = true /\
  digitalRead (pin_number RPI_ENABLE) s' = false /\
  rpi_queue s' = [] /\
  thread_list s' = snd (kill_thread RPI_CHANNEL (thread_list s)) /\
  trace s' = trace s ++ map EvSerial2Write (halt_frame (rpi_packet s))
               ++ [EvDelay 20000; EvDigitalWrite (pin_number RPI_ENABLE) false].
Proof.
  unfold RPI.shut_down_pi. rewrite send_to_pi_eq. simpl.
  destruct (kill_thread RPI_CHANNEL (thread_list s)) as [ok threads] eqn:Hk.
  simpl. rewrite pop_all_empty. unfold digitalRead. simpl.
  rewrite lookup_insert_eq. repeat split.
  unfold halt_frame. rewrite <- !app_assoc. reflexivity.
Qed.

(** C2, as the code has it.  The command that makes the RPi channel shut
    the RPi down is the switch command for the RPi whose argument byte
    [data[1]] is 0.  On pulling it the channel writes the framed halt
    command to its serial port, waits 20000 ms, drives the enable line LOW
    and discards everything left in its queue, whatever that was: the
    queue is empty afterwards. *)
Theorem rpi_off_command_shuts_down_and_empties_queue
    (s : State) (cmd : PacketComm) (rest : list PacketComm) :
  rpi_queue s = cmd :: rest ->
  is_rpi_off_command cmd ->
  exists s',
    RPI.handle_queue s = Some s' /\
    trace s' = trace s ++ map EvSerial2Write (halt_frame cmd)
                 ++ [EvDelay 20000;
                     EvDigitalWrite (pin_number RPI_ENABLE) false] /\
    digitalRead (pin_number RPI_ENABLE) s' = false /\
    rpi_queue s' = [] /\
    length (rpi_queue s') = 0%nat.
Proof.
  intros Hq Hoff. rewrite (handle_queue_off_command _ _ _ Hq Hoff).
  eexists. split; [reflexivity|].
  destruct (shut_down_pi_fields (set_rpi_packet cmd (set_rpi_queue rest s)))
    as (_ & Hpin & Hqueue & _ & Htrace).
  rewrite Htrace, Hpin, Hqueue. repeat split.
Qed.

Lemma kill_channel_send_to_pi (s : State) :
  kill_channel (RPI.send_to_pi s) = kill_channel s.
Proof. rewrite send_to_pi_eq. reflexivity. Qed.

(** [handle_queue] never clears the kill flag. *)
Lemma handle_queue_keeps_kill_flag (s s1 : State) :
  RPI.handle_queue s = Some s1 ->
  kill_channel s = true -> kill_channel s1 = true.
Proof.
  unfold RPI.handle_queue. intros Hh Hk.
  destruct (rpi_queue s) as [|pkt rest]; simpl in Hh;
    [injection Hh as <-; exact Hk|].
  destruct (type (header pkt));
    try (injection Hh as <-; rewrite kill_channel_send_to_pi; exact Hk).
  destruct (data pkt !! 0%nat) as [switchid|]; [|discriminate].
  simpl in Hh. destruct (switchid =? PDU_SW_RPI);
    [|injection Hh as <-; exact Hk].
  destruct (data pkt !! 1%nat) as [arg1|]; [|discriminate].
  simpl in Hh. destruct (arg1 =? 0); injection Hh as <-; [|exact Hk].
  apply shut_down_pi_fields.
Qed.

(** C8, as the code has it.  The kill flag is tested at the end of each
    iteration of the channel loop, after the queue has been handled, the
    transport polled and the 100 ms yield taken.  An iteration that ends
    with the flag set is the last one: the loop returns there.  An
    iteration that ends with the flag clear is followed by the next one.
    An iteration that starts with the flag already set still handles the
    queue once before the loop returns. *)
Theorem kill_flag_is_tested_after_each_iteration (fuel : nat) (s : State) :
  (forall s1,
      RPI.handle_queue s = Some s1 -> kill_channel s1 = true ->
      RPI.loop (S fuel) s
      = RPI.Returned (threads_delay 100 (RPI.receive_from_pi s1))) /\
  (forall s1,
      RPI.handle_queue s = Some s1 -> kill_channel s1 = false ->
      RPI.loop (S fuel) s
      = RPI.loop fuel (threads_delay 100 (RPI.receive_from_pi s1))) /\
  (kill_channel s = true ->
   RPI.loop (S fuel) s
   = match RPI.handle_queue s with
     | Some s1 => RPI.Returned (threads_delay 100 (RPI.receive_from_pi s1))
     | None => RPI.Undefined
     end).
Proof.
  split; [|split].
  - intros s1 Hh Hk. simpl. rewrite Hh. unfold RPI.receive_from_pi. simpl.
    rewrite Hk. reflexivity.
  - intros s1 Hh Hk. simpl. rewrite Hh. unfold RPI.receive_from_pi. simpl.
    rewrite Hk. reflexivity.
  - intros Hk. simpl. destruct (RPI.handle_queue s) as [s1|] eqn:Hh;
      [|reflexivity].
    unfold RPI.receive_from_pi. simpl.
    rewrite (handle_queue_keeps_kill_flag _ _ Hh Hk). reflexivity.
Qed.

(** C10. Shutting the RPi down sets the kill flag, drives the enable line
    LOW and empties the channel's queue whatever [kill_thread] answers,
    success or failure; and the channel loop that pulled the off command
    returns at the flag test that ends that iteration. *)
Theorem shutdown_finishes_whatever_kill_thread_answers
    (s : State) (ok : bool) (threads : list thread_struct) :
  kill_thread RPI_CHANNEL (thread_list s) = (ok, threads) ->
  (kill_channel (RPI.shut_down_pi s) = true /\
   digitalRead (pin_number RPI_ENABLE) (RPI.shut_down_pi s) = false /\
   rpi_queue (RPI.shut_down_pi s) = [] /\
   thread_list (RPI.shut_down_pi s) = threads) /\
  (forall cmd rest fuel,
      rpi_queue s = cmd :: rest ->
      is_rpi_off_command cmd ->
      exists s',
        RPI.loop (S fuel) s = RPI.Returned s' /\
        kill_channel s' = true /\
        digitalRead (pin_number RPI_ENABLE) s' = false /\
        rpi_queue s' = []).
Proof.
  intros Hkill. split.
  - destruct (shut_down_pi_fields s) as (Hk & Hpin & Hq & Ht & _).
    rewrite Hkill in Ht. repeat split; assumption.
  - intros cmd rest fuel Hq Hoff. simpl.
    rewrite (handle_queue_off_command _ _ _ Hq Hoff).
    unfold RPI.receive_from_pi. simpl.
    destruct (shut_down_pi_fields (set_rpi_packet cmd (set_rpi_queue rest s)))
      as (Hk & Hpin & Hqueue & _).
    rewrite Hk. eexists. split; [reflexivity|].
    simpl. repeat split; assumption.
Qed.

End ChannelFacts.

(** * Runs on the bench configuration *)

Section BenchRuns.
#[local] Existing Instance bench.

Lemma bench_ids_distinct : teensy_id_distinct.
Proof. split; intros E; vm_compute in E; discriminate E. Defined.

Lemma ping_is_answered_by_one_pong_witness :
  exists s' reply,
    route_packets (set_main_queue [bench_ping] bench_state) = Some s' /\
    packet s' = reply /\
    type (header reply) = DataObcPong /\
    nodedest (header reply) = 1 /\
    nodeorig (header reply) = 2 /\
    chanout (header reply) = 1 /\
    data reply = [80; 111; 110; 103] /\
    main_queue s' = [] /\
    (1 = RFM23_CHANNEL -> rfm23_queue s' = [] ++ [reply]) /\
    (1 <> RFM23_CHANNEL -> rfm23_queue s' = []) /\
    pdu_queue s' = [] /\
    rpi_queue s' = [].
Proof.
  exact (ping_is_answered_by_one_pong
           (set_main_queue [bench_ping] bench_state) bench_ping []
           bench_ids_distinct eq_refl eq_refl eq_refl).
Defined.

Lemma rpi_switch_off_is_forwarded_verbatim_witness :
  exists s',
    route_packets (set_main_queue [bench_switch [0]] bench_powered) = Some s' /\
    s' = set_rpi_queue ([] ++ [bench_switch [0]])
           (set_packet (bench_switch [0])
              (set_main_queue []
                 (set_main_queue [bench_switch [0]] bench_powered))) /\
    rpi_queue s' = [] ++ [bench_switch [0]] /\
    rfm23_queue s' = [] /\
    pdu_queue s' = [] /\
    pins s' = {[ 36 := true ]} /\
    thread_list s' = [] /\
    trace s' = [].
Proof.
  exact (rpi_switch_off_is_forwarded_verbatim
           (set_main_queue [bench_switch [0]] bench_powered)
           (bench_switch [0]) []
           bench_ids_distinct eq_refl eq_refl eq_refl eq_refl eq_refl).
Defined.

Lemma rpi_status_reply_reports_enable_line_witness :
  exists s' reply,
    route_packets (set_main_queue [bench_status_query] bench_powered)
      = Some s' /\
    rfm23_queue s' = [] ++ [reply] /\
    type (header reply) = DataEpsResponse /\
    nodedest (header reply) = 1 /\
    nodeorig (header reply) = 2 /\
    data reply = [14; 1].
Proof.
  exact (rpi_status_reply_reports_enable_line
           (set_main_queue [bench_status_query] bench_powered)
           bench_status_query []
           bench_ids_distinct eq_refl eq_refl eq_refl eq_refl).
Defined.

Lemma pdu_refresh_claims_ground_origin_witness :
  (exists pkt,
      is_pdu_refresh pkt /\
      pdu_queue (update_pdu_switches bench_state) = [] ++ [pkt]) /\
  (exists s' pkt,
      route_packets (set_main_queue [bench_send_beacon] bench_state)
        = Some s' /\
      is_pdu_refresh pkt /\ pdu_queue s' = [] ++ [pkt]) /\
  (exists pkt,
      is_pdu_refresh pkt /\
      pdu_queue (beacon_if_deployed (set_millis 20000 bench_state))
        = [] ++ [pkt]) /\
  (exists pkt,
      is_pdu_refresh pkt /\
      pdu_queue (ensure_rpi_is_powered (bench_board 6.5%float))
        = [] ++ [pkt]).
Proof.
  destruct (pdu_refresh_claims_ground_origin bench_ids_distinct)
    as (Hupd & Hcmd & Hdep & Hlow).
  split; [exact (Hupd bench_state)|].
  split; [exact (Hcmd (set_main_queue [bench_send_beacon] bench_state)
                   bench_send_beacon [] eq_refl eq_refl eq_refl)|].
  split.
  - apply (Hdep (set_millis 20000 bench_state)); [reflexivity|].
    vm_compute. discriminate.
  - exact (Hlow (bench_board 6.5%float) eq_refl eq_refl).
Defined.

Lemma ensure_powered_registers_per_call_witness :
  digitalRead (pin_number RPI_ENABLE) (ensure_rpi_is_powered bench_state)
    = true /\
  thread_list (ensure_rpi_is_powered bench_state) = [mkThread 2 3] /\
  rpi_entries (thread_list (ensure_rpi_is_powered bench_state)) = 1%nat.
Proof.
  destruct (ensure_powered_registers_per_call (H := bench)
              bench_state eq_refl eq_refl)
    as (Hpin & Hstart & _).
  destruct (Hstart 2 [3; 4] eq_refl) as (Hlist & _ & Hone).
  - discriminate.
  - split; [exact Hpin|]. split; [exact Hlist|]. exact (Hone eq_refl).
Defined.

(** C4 counterexample.  On the bench the presence signal reads absent and
    the bus gives 8 V before a first and before a second call of
    [ensure_rpi_is_powered]; the thread list starts empty.  After the
    second call the enable line has been driven HIGH twice and the thread
    list holds two RPi channel entries, not one. *)
Lemma ensure_powered_twice_registers_twice :
  rpi_absent bench_state /\
  PrimFloat.leb 7.0%float (bus_voltage bench_state) = true /\
  rpi_entries (thread_list bench_state) = 0%nat /\
  rpi_absent (ensure_rpi_is_powered bench_state) /\
  PrimFloat.leb 7.0%float (bus_voltage (ensure_rpi_is_powered bench_state))
    = true /\
  trace (ensure_rpi_is_powered (ensure_rpi_is_powered bench_state))
    = [EvDigitalWrite 36 true; EvDelay 5000;
       EvDigitalWrite 36 true; EvDelay 5000] /\
  thread_list (ensure_rpi_is_powered (ensure_rpi_is_powered bench_state))
    = [mkThread 2 3; mkThread 3 3] /\
  rpi_entries
    (thread_list (ensure_rpi_is_powered (ensure_rpi_is_powered bench_state)))
    <> 1%nat.
Proof. repeat split; try reflexivity. vm_compute. discriminate. Qed.

Lemma deployment_beacon_once_per_interval_witness :
  beacon_if_deployed (set_millis 19999 bench_state)
    = set_millis 19999 bench_state /\
  pdu_queue (beacon_if_deployed (set_millis 20000 bench_state)) <> [] /\
  elapsed
    (deploymentbeacon (beacon_if_deployed (set_millis 20000 bench_state)))
    (beacon_if_deployed (set_millis 20000 bench_state)) = 0 /\
  beacon_if_deployed
    (set_millis 39999 (beacon_if_deployed (set_millis 20000 bench_state)))
    = set_millis 39999 (beacon_if_deployed (set_millis 20000 bench_state)).
Proof.
  destruct (deployment_beacon_once_per_interval (H := bench))
    as [Hidle Hdue].
  split.
  - apply Hidle. right. reflexivity.
  - split; [discriminate|].
    assert (Hle : readInterval
                  <= elapsed (deploymentbeacon (set_millis 20000 bench_state))
                       (set_millis 20000 bench_state))
      by (vm_compute; discriminate).
    destruct (Hdue (set_millis 20000 bench_state) eq_refl Hle)
      as [Hzero Hquiet].
    split; [exact Hzero|].
    apply (Hquiet _ 19999); [reflexivity | | reflexivity].
    split; [discriminate | reflexivity].
Defined.

Lemma rpi_off_command_shuts_down_and_empties_queue_witness :
  length (rpi_queue (bench_rpi_queue [0])) = 4%nat /\
  exists s',
    RPI.handle_queue (bench_rpi_queue [0]) = Some s' /\
    trace s' = [] ++ map EvSerial2Write [192; 14; 0; 192]
                 ++ [EvDelay 20000; EvDigitalWrite 36 false] /\
    digitalRead 36 s' = false /\
    rpi_queue s' = [] /\
    length (rpi_queue s') = 0%nat.
Proof.
  split; [reflexivity|].
  exact (rpi_off_command_shuts_down_and_empties_queue
           (bench_rpi_queue [0]) (bench_switch [0])
           [bench_data 1; bench_data 2; bench_data 3]
           eq_refl (conj eq_refl (conj eq_refl eq_refl))).
Defined.

(** C2 counterexample.  The RPi channel pulls a switch command for the RPi
    whose argument bytes are 1, with three packets queued behind it and
    the enable line HIGH.  Nothing is written to the serial port, there is
    no wait, the enable line stays HIGH, the kill flag stays clear and the
    three packets are still queued. *)
Lemma rpi_switch_arg_one_does_not_shut_down :
  data (bench_switch [1; 1]) = [PDU_SW_RPI; 1; 1] /\
  type (header (bench_switch [1; 1])) = CommandEpsSwitchName /\
  exists s',
    RPI.handle_queue (bench_rpi_queue [1; 1]) = Some s' /\
    trace s' = [] /\
    digitalRead (pin_number RPI_ENABLE) s' = true /\
    kill_channel s' = false /\
    rpi_queue s' = [bench_data 1; bench_data 2; bench_data 3] /\
    length (rpi_queue s') <> 0%nat.
Proof.
  split; [reflexivity|]. split; [reflexivity|].
  eexists. split; [reflexivity|]. repeat split. discriminate.
Qed.

Lemma kill_flag_is_tested_after_each_iteration_witness :
  RPI.loop 1 bench_killed
  = match RPI.handle_queue bench_killed with
    | Some s1 => RPI.Returned (threads_delay 100 (RPI.receive_from_pi s1))
    | None => RPI.Undefined
    end.
Proof.
  destruct (kill_flag_is_tested_after_each_iteration (H := bench)
              0 bench_killed)
    as (_ & _ & Hset).
  exact (Hset eq_refl).
Defined.

(** C8 counterexample.  The channel loop is entered with the kill flag
    already set and one packet queued.  The loop pulls that packet and
    writes it to the serial port before it reaches the flag test and
    returns. *)
Lemma killed_channel_still_handles_a_packet :
  kill_channel bench_killed = true /\
  rpi_queue bench_killed = [bench_data 7] /\
  trace bench_killed = [] /\
  exists s',
    RPI.loop 1 bench_killed = RPI.Returned s' /\
    rpi_queue s' = [] /\
    trace s' = [EvSerial2Write 192; EvSerial2Write 7; EvSerial2Write 192;
                EvDelay 100].
Proof.
  repeat split. eexists. split; [vm_compute; reflexivity|].
  split; vm_compute; reflexivity.
Qed.

Lemma shutdown_finishes_whatever_kill_thread_answers_witness :
  kill_thread RPI_CHANNEL (thread_list (bench_rpi_queue [0])) = (false, []) /\
  (kill_channel (RPI.shut_down_pi (bench_rpi_queue [0])) = true /\
   digitalRead 36 (RPI.shut_down_pi (bench_rpi_queue [0])) = false /\
   rpi_queue (RPI.shut_down_pi (bench_rpi_queue [0])) = [] /\
   thread_list (RPI.shut_down_pi (bench_rpi_queue [0])) = []) /\
  exists s',
    RPI.loop 1 (bench_rpi_queue [0]) = RPI.Returned s' /\
    kill_channel s' = true /\
    digitalRead 36 s' = false /\
    rpi_queue s' = [].
Proof.
  split; [reflexivity|].
  destruct (shutdown_finishes_whatever_kill_thread_answers (H := bench)
              (bench_rpi_queue [0]) false [] eq_refl) as [Hdone Hloop].
  split; [exact Hdone|].
  exact (Hloop (bench_switch [0]) [bench_data 1; bench_data 2; bench_data 3]
           0%nat eq_refl (conj eq_refl (conj eq_refl eq_refl))).
Defined.

(** Three cycles of the main loop on a queue of three pings answer them
    in order: the radio queue receives three pongs and the central queue
    is empty. *)
Example three_pings_three_cycles :
  (fun s => (main_queue s, length (rfm23_queue s)))
    <$> iterate 3 loop
          (set_main_queue [bench_ping; bench_ping; bench_ping] bench_state)
  = Some ([], 3%nat).
Proof. reflexivity. Qed.

End BenchRuns.

(** * Further properties of the router *)

Section MoreRouterFacts.
Context `{Platform}.

Lemma grown_refl (q : list PacketComm) : grown_by_at_most_one q q.
Proof. left. reflexivity. Qed.

Lemma grown_snoc (q : list PacketComm) (pkt : PacketComm) :
  grown_by_at_most_one q (q ++ [pkt]).
Proof. right. exists pkt. reflexivity. Qed.

(** A step that changes the board in no way and appends at most one packet
    to each channel queue. *)
Lemma effects_quiet (s s' : State) :
  kill_channel s' = kill_channel s ->
  rpi_packet s' = rpi_packet s ->
  deploymentmode s' = deploymentmode s ->
  deploymentbeacon s' = deploymentbeacon s ->
  uptime s' = uptime s ->
  bus_voltage s' = bus_voltage s ->
  trace s' = trace s -> pins s' = pins s -> millis s' = millis s ->
  thread_list s' = thread_list s -> addThread_ret s' = addThread_ret s ->
  grown_by_at_most_one (rfm23_queue s) (rfm23_queue s') ->
  grown_by_at_most_one (pdu_queue s) (pdu_queue s') ->
  grown_by_at_most_one (rpi_queue s) (rpi_queue s') ->
  router_effects s s'.
Proof. intros. split; [|split; [left|]]; repeat split; assumption. Qed.

Ltac quiet :=
  apply effects_quiet; try reflexivity;
  first [apply grown_refl | apply grown_snoc].

Lemma effects_id (s : State) : router_effects s s.
Proof. quiet. Qed.

Lemma effects_route_packet_to_ground (s : State) :
  router_effects s (route_packet_to_ground s).
Proof.
  unfold route_packet_to_ground.
  destruct (chanout (header (packet s)) =? RFM23_CHANNEL); quiet.
Qed.

Lemma effects_send_pong_reply (s : State) :
  router_effects s (send_pong_reply s).
Proof.
  unfold send_pong_reply, route_packet_to_ground. cbn.
  destruct (chanout (header (packet s)) =? RFM23_CHANNEL); quiet.
Qed.

Lemma effects_route_packet_to_pdu (pkt : PacketComm) (s : State) :
  router_effects s (route_packet_to_pdu pkt s).
Proof. quiet. Qed.

Lemma effects_route_packet_to_rpi (pkt : PacketComm) (s : State) :
  router_effects s (route_packet_to_rpi pkt s).
Proof. quiet. Qed.

Lemma effects_report_rpi_enabled (s : State) :
  router_effects s (report_rpi_enabled s).
Proof. quiet. Qed.

Lemma effects_update_pdu_switches (s : State) :
  router_effects s (update_pdu_switches s).
Proof. quiet. Qed.

Lemma effects_send_beacon (s : State) :
  router_effects s (update_pdu_switches (beacon_artemis_devices s)).
Proof. rewrite beacon_artemis_devices_eq. quiet. Qed.

(** Powering on, followed by any forwarding that leaves the board alone. *)
Lemma effects_power_on (s : State) (after : State -> State) :
  (forall t, router_effects t (after t)) ->
  (forall t, trace (after t) = trace t /\ pins (after t) = pins t /\
             millis (after t) = millis t /\
             thread_list (after t) = thread_list t) ->
  router_effects s (after (threads_delay 5000 (enable_rpi s))).
Proof.
  intros Hafter Hboard.
  set (t := threads_delay 5000 (enable_rpi s)).
  destruct (Hafter t) as (Hnever & _ & Hrfm & Hpdu & Hrpi).
  destruct (Hboard t) as (Htr & Hpins & Hms & Hth).
  assert (Ht : (kill_channel t = kill_channel s /\
                rpi_packet t = rpi_packet s /\
                deploymentmode t = deploymentmode s /\
                deploymentbeacon t = deploymentbeacon s /\
                uptime t = uptime s /\ bus_voltage t = bus_voltage s) /\
               trace t = trace s ++ power_on_events /\
               pins t = <[pin_number RPI_ENABLE := true]> (pins s) /\
               millis t = u32 (millis s + 5000) /\
               (thread_list t = thread_list s \/
                exists id, id <> -1 /\
                  thread_list t = thread_list s ++ [mkThread id RPI_CHANNEL]) /\
               rfm23_queue t = rfm23_queue s /\
               pdu_queue t = pdu_queue s /\ rpi_queue t = rpi_queue s).
  { subst t. unfold enable_rpi, threads_addThread. simpl addThread_ret.
    destruct (addThread_ret s) as [|id rest]; simpl.
    - rewrite <- app_assoc. repeat split. left. reflexivity.
    - destruct (id =? -1) eqn:Hid; simpl; rewrite <- app_assoc;
        repeat split; [left; reflexivity|].
      right. exists id. split; [apply Z.eqb_neq; exact Hid|reflexivity]. }
  destruct Ht as (Hn & Htr' & Hpins' & Hms' & Hth' & Hq1 & Hq2 & Hq3).
  destruct Hnever as (H1 & H2 & H3 & H4 & H5 & H6).
  destruct Hn as (G1 & G2 & G3 & G4 & G5 & G6).
  split; [repeat split; congruence|].
  split; [right; repeat split; try congruence;
          rewrite Hth; exact Hth'|].
  rewrite <- Hq1, <- Hq2, <- Hq3. repeat split; assumption.
Qed.

Lemma effects_enable_rpi (s : State) :
  router_effects s (threads_delay 5000 (enable_rpi s)).
Proof.
  apply (effects_power_on s (fun t => t)); [exact effects_id|].
  intros t. repeat split.
Qed.

Lemma effects_ensure_rpi_is_powered (s : State) :
  router_effects s (ensure_rpi_is_powered s).
Proof.
  unfold ensure_rpi_is_powered.
  destruct (digitalRead (u8 UART6_RX) s); simpl negb; cbv iota;
    [apply effects_id|].
  destruct (PrimFloat.leb 7.0%float (bus_voltage s)); cbv zeta.
  - apply effects_enable_rpi.
  - apply effects_update_pdu_switches.
Qed.

Lemma effects_ensure_then_forward (s : State) :
  router_effects s
    (route_packet_to_rpi (packet (ensure_rpi_is_powered s))
       (ensure_rpi_is_powered s)).
Proof.
  unfold ensure_rpi_is_powered.
  destruct (digitalRead (u8 UART6_RX) s); simpl negb; cbv iota;
    [apply effects_route_packet_to_rpi|].
  destruct (PrimFloat.leb 7.0%float (bus_voltage s)); cbv zeta.
  - apply (effects_power_on s (fun t => route_packet_to_rpi (packet t) t)).
    + intros t. apply effects_route_packet_to_rpi.
    + intros t. repeat split.
  - quiet.
Qed.

Lemma dispatch_effects (s s' : State) :
  dispatch s = Some s' -> router_effects s s'.
Proof.
  unfold dispatch. intros Hd.
  destruct (nodedest (header (packet s)) =? u8 GROUND_NODE_ID);
    [injection Hd as <-; apply effects_route_packet_to_ground|].
  destruct (nodedest (header (packet s)) =? u8 RPI_NODE_ID);
    [injection Hd as <-; apply effects_ensure_then_forward|].
  destruct (nodedest (header (packet s)) =? u8 TEENSY_NODE_ID);
    [|injection Hd as <-; apply effects_id].
  destruct (type (header (packet s)));
    try (injection Hd as <-;
         first [ apply effects_id | apply effects_send_pong_reply
               | apply effects_route_packet_to_pdu
               | apply effects_send_beacon ]).
  - destruct (data (packet s) !! 0%nat) as [switchid|]; [|discriminate].
    simpl in Hd. destruct (switchid =? PDU_SW_RPI);
      [|injection Hd as <-; apply effects_route_packet_to_pdu].
    destruct (data (packet s) !! 1%nat) as [arg1|]; [|discriminate].
    simpl in Hd. destruct (arg1 =? 0);
      [injection Hd as <-; apply effects_route_packet_to_rpi|].
    destruct (data (packet s) !! 2%nat) as [arg2|]; [|discriminate].
    simpl in Hd. destruct (arg2 =? 1); injection Hd as <-.
    + apply effects_enable_rpi.
    + apply effects_ensure_rpi_is_powered.
  - destruct (data (packet s) !! 0%nat) as [switchid|]; [|discriminate].
    simpl in Hd. destruct (switchid =? PDU_SW_RPI); injection Hd as <-.
    + apply effects_report_rpi_enabled.
    + apply effects_route_packet_to_pdu.
Qed.

(** *** The routes that the router takes *)

(** X1. A packet for ground is appended unchanged to the radio queue when
    its [chanout] names the radio channel, and is dropped otherwise: then
    only the packet buffer and the central queue change. *)
Theorem ground_packet_is_forwarded_or_dropped
    (s : State) (P : PacketComm) (rest : list PacketComm) :
  main_queue s = P :: rest ->
  nodedest (header P) = u8 GROUND_NODE_ID ->
  (chanout (header P) = RFM23_CHANNEL ->
   route_packets s
   = Some (set_rfm23_queue (rfm23_queue s ++ [P])
             (set_packet P (set_main_queue rest s)))) /\
  (chanout (header P) <> RFM23_CHANNEL ->
   route_packets s = Some (set_packet P (set_main_queue rest s))).
Proof.
  intros Hq Hd. rewrite (route_packets_pull _ _ _ Hq).
  unfold dispatch, route_packet_to_ground. simpl packet.
  rewrite Hd, Z.eqb_refl.
  split; intros Hc.
  - rewrite Hc, Z.eqb_refl. reflexivity.
  - apply Z.eqb_neq in Hc. rewrite Hc. reflexivity.
Qed.

Lemma dispatch_to_rpi_node (s : State) :
  nodedest (header (packet s)) <> u8 GROUND_NODE_ID ->
  nodedest (header (packet s)) = u8 RPI_NODE_ID ->
  dispatch s
  = Some (route_packet_to_rpi (packet (ensure_rpi_is_powered s))
            (ensure_rpi_is_powered s)).
Proof.
  intros Hg Hr. unfold dispatch. apply Z.eqb_neq in Hg.
  rewrite Hg, Hr, Z.eqb_refl. reflexivity.
Qed.

(** X2. A packet for the RPi node is appended unchanged to the RPi queue
    when the presence signal reads present (nothing else happens), and
    also when it reads absent and the bus voltage is at least 7.0 V: then
    the RPi is powered on first and the router sleeps 5000 ms. *)
Theorem rpi_packet_is_forwarded_when_rpi_can_run
    (s : State) (P : PacketComm) (rest : list PacketComm) :
  main_queue s = P :: rest ->
  nodedest (header P) <> u8 GROUND_NODE_ID ->
  nodedest (header P) = u8 RPI_NODE_ID ->
  (digitalRead (u8 UART6_RX) s = true ->
   route_packets s
   = Some (set_rpi_queue (rpi_queue s ++ [P])
             (set_packet P (set_main_queue rest s)))) /\
  (rpi_absent s ->
   PrimFloat.leb 7.0%float (bus_voltage s) = true ->
   exists s',
     route_packets s = Some s' /\
     rpi_queue s' = rpi_queue s ++ [P] /\
     pdu_queue s' = pdu_queue s /\
     trace s' = trace s ++ power_on_events /\
     digitalRead (pin_number RPI_ENABLE) s' = true).
Proof.
  intros Hq Hg Hr. rewrite (route_packets_pull _ _ _ Hq).
  rewrite dispatch_to_rpi_node by (simpl; assumption).
  unfold ensure_rpi_is_powered.
  change (digitalRead (u8 UART6_RX) (set_packet P (set_main_queue rest s)))
    with (digitalRead (u8 UART6_RX) s).
  simpl bus_voltage.
  split.
  - intros Hp. rewrite Hp. reflexivity.
  - intros Habs Hv. unfold rpi_absent in Habs. rewrite Habs, Hv.
    simpl negb. cbv iota zeta.
    eexists. split; [reflexivity|].
    unfold enable_rpi, threads_addThread. simpl addThread_ret.
    destruct (addThread_ret s) as [|id ids]; simpl;
      [|destruct (id =? -1); simpl];
      rewrite <- app_assoc; unfold digitalRead; simpl;
      rewrite lookup_insert_eq; repeat split.
Qed.


(** X4. Packets for the flight computer that concern the PDU are appended
    unchanged to the PDU queue and nothing else happens: a communicate
    command, and a switch command or switch-status query whose first
    payload byte is not the RPi switch. *)
Theorem pdu_traffic_is_forwarded_verbatim
    (s : State) (P : PacketComm) (rest : list PacketComm) :
  teensy_id_distinct ->
  main_queue s = P :: rest ->
  nodedest (header P) = u8 TEENSY_NODE_ID ->
  type (header P) = CommandEpsCommunicate \/
  ((type (header P) = CommandEpsSwitchName \/
    type (header P) = CommandEpsSwitchStatus) /\
   exists switchid,
     data P !! 0%nat = Some switchid /\ switchid <> PDU_SW_RPI) ->
  route_packets s
  = Some (set_pdu_queue (pdu_queue s ++ [P])
            (set_packet P (set_main_queue rest s))).
Proof.
  intros Hid Hq Hd Hkind. rewrite (route_packets_pull _ _ _ Hq).
  rewrite dispatch_to_teensy by (simpl; assumption). simpl packet.
  destruct Hkind as [Ht | [[Ht | Ht] (sw & H0 & Hsw)]]; rewrite Ht;
    [reflexivity | |];
    rewrite H0; simpl; apply Z.eqb_neq in Hsw; rewrite Hsw; reflexivity.
Qed.

(** X5. A packet is dropped, with no effect beyond leaving the central
    queue, when its destination is none of the three node ids, or when it
    is for the flight computer with a type that the router has no case
    for. *)
Theorem unroutable_packet_is_dropped
    (s : State) (P : PacketComm) (rest : list PacketComm) :
  main_queue s = P :: rest ->
  nodedest (header P) <> u8 GROUND_NODE_ID ->
  nodedest (header P) <> u8 RPI_NODE_ID ->
  nodedest (header P) <> u8 TEENSY_NODE_ID \/
  type (header P) = CommandObcHalt \/
  type (header P) = DataObcPong \/
  type (header P) = DataEpsResponse \/
  (exists code, type (header P) = OtherTypeId code) ->
  route_packets s = Some (set_packet P (set_main_queue rest s)).
Proof.
  intros Hq Hg Hr Hwhy. rewrite (route_packets_pull _ _ _ Hq).
  unfold dispatch. simpl packet.
  apply Z.eqb_neq in Hg, Hr. rewrite Hg, Hr.
  destruct (nodedest (header P) =? u8 TEENSY_NODE_ID) eqn:Ht;
    [|reflexivity].
  apply Z.eqb_eq in Ht.
  destruct Hwhy as [Hn | [Hty | [Hty | [Hty | [code Hty]]]]];
    [contradiction | | | |]; rewrite Hty; reflexivity.
Qed.

(** X6. A switch command for the RPi whose byte 1 is not 0 and whose
    byte 2 is 1 powers the RPi on whatever the presence signal and the bus
    voltage read: the enable line is driven HIGH, the router sleeps
    5000 ms, and the thread that was started, if any, is registered as the
    RPi channel.  No packet is queued anywhere. *)
Theorem rpi_switch_on_powers_on_unconditionally
    (s : State) (P : PacketComm) (rest : list PacketComm) (arg1 : Z) :
  teensy_id_distinct ->
  main_queue s = P :: rest ->
  nodedest (header P) = u8 TEENSY_NODE_ID ->
  type (header P) = CommandEpsSwitchName ->
  data P !! 0%nat = Some PDU_SW_RPI ->
  data P !! 1%nat = Some arg1 -> arg1 <> 0 ->
  data P !! 2%nat = Some 1 ->
  exists s',
    route_packets s = Some s' /\
    digitalRead (pin_number RPI_ENABLE) s' = true /\
    trace s' = trace s ++ power_on_events /\
    (forall id ids,
        addThread_ret s = id :: ids -> id <> -1 ->
        thread_list s' = thread_list s ++ [mkThread id RPI_CHANNEL]) /\
    rfm23_queue s' = rfm23_queue s /\
    pdu_queue s' = pdu_queue s /\
    rpi_queue s' = rpi_queue s.
Proof.
  intros Hid Hq Hd Ht H0 H1 Ha H2. rewrite (route_packets_pull _ _ _ Hq).
  rewrite dispatch_to_teensy by (simpl; assumption). simpl packet.
  rewrite Ht, H0. simpl. rewrite Z.eqb_refl, H1. simpl.
  apply Z.eqb_neq in Ha. rewrite Ha, H2. simpl.
  eexists. split; [reflexivity|].
  unfold enable_rpi, threads_addThread. simpl addThread_ret.
  destruct (addThread_ret s) as [|id ids] eqn:Hret; simpl.
  - rewrite <- app_assoc. unfold digitalRead. simpl.
    rewrite lookup_insert_eq. repeat split. discriminate.
  - destruct (id =? -1) eqn:Hneg; simpl; rewrite <- app_assoc;
      unfold digitalRead; simpl; rewrite lookup_insert_eq; repeat split.
    + intros id' ids' [= <- <-] Hne. apply Z.eqb_eq in Hneg. contradiction.
    + intros id' ids' [= <- <-] _. reflexivity.
Qed.

(** *** Payload bounds in the router *)

Lemma dispatch_none_iff (s : State) :
  dispatch s = None <-> router_reads_past_end (packet s).
Proof.
  unfold dispatch, router_reads_past_end, for_teensy. split.
  - intros Hd.
    destruct (Z.eqb_spec (nodedest (header (packet s))) (u8 GROUND_NODE_ID))
      as [Eg|Ng]; [discriminate|].
    destruct (Z.eqb_spec (nodedest (header (packet s))) (u8 RPI_NODE_ID))
      as [Er|Nr]; [discriminate|].
    destruct (Z.eqb_spec (nodedest (header (packet s))) (u8 TEENSY_NODE_ID))
      as [Et|Nt]; [|discriminate].
    split; [auto|].
    destruct (type (header (packet s))); try discriminate.
    + right. split; [reflexivity|].
      destruct (data (packet s)) as [|d0 [|d1 [|d2 more]]]; simpl in Hd.
      * left. reflexivity.
      * destruct (Z.eqb_spec d0 PDU_SW_RPI); [|discriminate].
        subst. right. left. reflexivity.
      * destruct (Z.eqb_spec d0 PDU_SW_RPI); [|discriminate].
        simpl in Hd. destruct (Z.eqb_spec d1 0); [discriminate|].
        subst. right. right. exists d1. auto.
      * destruct (d0 =? PDU_SW_RPI); [|discriminate]. simpl in Hd.
        destruct (d1 =? 0); [discriminate|]. simpl in Hd.
        destruct (d2 =? 1); discriminate.
    + left. split; [reflexivity|].
      destruct (data (packet s)) as [|d0 more]; [reflexivity|].
      simpl in Hd. destruct (d0 =? PDU_SW_RPI); discriminate.
  - intros ((Hg & Hr & Ht) & Hcase). apply Z.eqb_neq in Hg, Hr.
    rewrite Hg, Hr, Ht, Z.eqb_refl.
    destruct Hcase as [[Hty Hdat] | [Hty [Hdat | [Hdat | (a & Ha & Hdat)]]]];
      rewrite Hty, Hdat; simpl; try reflexivity.
    + rewrite Z.eqb_refl. reflexivity.
    + rewrite Z.eqb_refl. simpl. apply Z.eqb_neq in Ha. rewrite Ha.
      reflexivity.
Qed.

(** X7. [route_packets] indexes the payload past its end in exactly these
    cases, all of them packets for the flight computer at the head of the
    central queue: a switch-status query or a switch command with an empty
    payload, a switch command whose payload is the RPi switch id alone, and
    a switch command for the RPi with a non-zero byte 1 and no byte 2.
    Every other packet, whatever its payload, is routed. *)
Theorem router_reads_past_end_exactly_when (s : State) :
  route_packets s = None <->
  exists P rest, main_queue s = P :: rest /\ router_reads_past_end P.
Proof.
  unfold route_packets.
  destruct (main_queue s) as [|P rest]; simpl.
  - split; [discriminate|]. intros (P & rest & Hq & _). discriminate.
  - rewrite dispatch_none_iff. simpl packet. split.
    + intros Hbad. exists P, rest. split; [reflexivity|exact Hbad].
    + intros (P' & rest' & [= <- <-] & Hbad). exact Hbad.
Qed.

(** *** What a cycle of the main loop can do *)

Lemma route_packets_effects (s s' : State) :
  route_packets s = Some s' -> router_effects s s'.
Proof.
  unfold route_packets. destruct (main_queue s) as [|pkt rest]; simpl.
  - intros [= <-]. apply effects_id.
  - intros Hd. exact (dispatch_effects _ _ Hd).
Qed.

Lemma beacon_if_deployed_board (s : State) :
  (trace (beacon_if_deployed s) = trace s /\
   pins (beacon_if_deployed s) = pins s /\
   millis (beacon_if_deployed s) = millis s /\
   thread_list (beacon_if_deployed s) = thread_list s /\
   kill_channel (beacon_if_deployed s) = kill_channel s /\
   rpi_packet (beacon_if_deployed s) = rpi_packet s) /\
  rfm23_queue (beacon_if_deployed s) = rfm23_queue s /\
  rpi_queue (beacon_if_deployed s) = rpi_queue s /\
  grown_by_at_most_one (pdu_queue s) (pdu_queue (beacon_if_deployed s)).
Proof.
  unfold beacon_if_deployed.
  destruct (deploymentmode s);
    [|repeat split; apply grown_refl].
  destruct (readInterval <=? elapsed (deploymentbeacon s) s);
    [|repeat split; apply grown_refl].
  rewrite beacon_artemis_devices_eq. repeat split. apply grown_snoc.
Qed.

Lemma loop_inv (s s' : State) :
  loop s = Some s' ->
  exists s1,
    route_packets (beacon_if_deployed s) = Some s1 /\
    s' = threads_delay 100 s1.
Proof.
  unfold loop. intros Hl.
  destruct (route_packets (beacon_if_deployed s)) as [s1|]; [|discriminate].
  injection Hl as <-. exists s1. split; reflexivity.
Qed.

(** X8. A cycle of the main loop never drives the RPi enable line LOW,
    never touches another pin and never writes to the serial port: its
    events are the 100 ms yield, preceded at most by one power-on of the
    RPi.  It leaves the RPi channel's kill flag and packet buffer alone. *)
Theorem main_cycle_never_powers_off (s s' : State) :
  loop s = Some s' ->
  (trace s' = trace s ++ [EvDelay 100] \/
   trace s' = trace s ++ power_on_events ++ [EvDelay 100]) /\
  (forall pin,
      pin <> pin_number RPI_ENABLE ->
      digitalRead pin s' = digitalRead pin s) /\
  (digitalRead (pin_number RPI_ENABLE) s = true ->
   digitalRead (pin_number RPI_ENABLE) s' = true) /\
  kill_channel s' = kill_channel s /\
  rpi_packet s' = rpi_packet s.
Proof.
  intros Hl. destruct (loop_inv _ _ Hl) as (s1 & Hr & ->).
  destruct (beacon_if_deployed_board s)
    as ((Btr & Bpins & _ & _ & Bkill & Bbuf) & _).
  destruct (route_packets_effects _ _ Hr)
    as ((Hkill & Hbuf & _) & Hboard & _).
  simpl. rewrite Hkill, Hbuf, Bkill, Bbuf.
  destruct Hboard as [(Htr & Hpins & _) | (Htr & Hpins & _)];
    rewrite Htr, Btr.
  - split; [left; reflexivity|].
    assert (Hsame : forall pin,
               digitalRead pin (threads_delay 100 s1) = digitalRead pin s).
    { intros pin. unfold digitalRead. simpl. rewrite Hpins, Bpins.
      reflexivity. }
    repeat split; intros; rewrite Hsame; auto.
  - split; [right; rewrite <- app_assoc; reflexivity|].
    repeat split.
    + intros pin Hne. unfold digitalRead. simpl. rewrite Hpins, Bpins.
      rewrite lookup_insert_ne; [reflexivity|].
      intros E. apply Hne. symmetry. exact E.
    + intros _. unfold digitalRead. simpl. rewrite Hpins.
      rewrite lookup_insert_eq. reflexivity.
Qed.

(** X9. A cycle of the main loop never removes a packet from a channel
    queue: it appends at most one packet to the radio queue, at most one
    to the RPi queue and at most two to the PDU queue (the deployment
    refresh and one routed packet); and it registers at most one thread,
    always as the RPi channel. *)
Theorem main_cycle_only_appends_to_channel_queues (s s' : State) :
  loop s = Some s' ->
  grown_by_at_most_one (rfm23_queue s) (rfm23_queue s') /\
  grown_by_at_most_one (rpi_queue s) (rpi_queue s') /\
  (exists extra,
      pdu_queue s' = pdu_queue s ++ extra /\ (length extra <= 2)%nat) /\
  (thread_list s' = thread_list s \/
   exists id, id <> -1 /\
     thread_list s' = thread_list s ++ [mkThread id RPI_CHANNEL]).
Proof.
  intros Hl. destruct (loop_inv _ _ Hl) as (s1 & Hr & ->).
  destruct (beacon_if_deployed_board s)
    as ((_ & _ & _ & Bth & _) & Brfm & Brpi & Bpdu).
  destruct (route_packets_effects _ _ Hr)
    as (_ & Hboard & Hrfm & Hpdu & Hrpi).
  simpl. rewrite Brfm in Hrfm. rewrite Brpi in Hrpi.
  split; [exact Hrfm|]. split; [exact Hrpi|]. split.
  - destruct Bpdu as [B | [b B]]; destruct Hpdu as [D | [d D]];
      rewrite D, B.
    + exists []. rewrite app_nil_r. split; [reflexivity|simpl; lia].
    + exists [d]. split; [reflexivity|simpl; lia].
    + exists [b]. split; [reflexivity|simpl; lia].
    + exists [b; d]. rewrite <- app_assoc. split; [reflexivity|simpl; lia].
  - destruct Hboard as [(_ & _ & _ & Hth & _) | (_ & _ & _ & Hth)].
    + left. congruence.
    + rewrite Bth in Hth. exact Hth.
Qed.

(** *** The beacon timer *)

(** X10. The deployment beacon timer is read correctly across the
    wrap-around of the 32-bit millisecond clock: if [d] milliseconds,
    fewer than 2^32, have passed since the timer was reset, a check in
    deployment mode changes nothing when [d] is below [readInterval], and
    otherwise queues the status refresh and resets the timer to the
    current clock value. *)
Theorem beacon_timer_survives_clock_wrap (s : State) (d : Z) :
  deploymentmode s = true ->
  0 <= d < 2 ^ 32 ->
  millis s = u32 (deploymentbeacon s + d) ->
  elapsed (deploymentbeacon s) s = d /\
  (d < readInterval -> beacon_if_deployed s = s) /\
  (readInterval <= d ->
   deploymentbeacon (beacon_if_deployed s) = millis s /\
   exists pkt,
     is_pdu_refresh pkt /\
     pdu_queue (beacon_if_deployed s) = pdu_queue s ++ [pkt]).
Proof.
  intros Hm Hd Hclock.
  assert (He : elapsed (deploymentbeacon s) s = d).
  { unfold elapsed. rewrite Hclock. apply u32_elapsed_after. exact Hd. }
  split; [exact He|]. unfold beacon_if_deployed. rewrite Hm, He. split.
  - intros Hlt. apply Z.leb_gt in Hlt. rewrite Hlt. reflexivity.
  - intros Hge. apply Z.leb_le in Hge. rewrite Hge.
    rewrite beacon_artemis_devices_eq. split; [reflexivity|].
    eexists. split; [|reflexivity]. repeat split.
Qed.

(** *** Start-up *)

(** X11. [setup_threads] registers the radio channel and then the PDU
    channel, each only if its thread started, so a radio thread that fails
    to start does not keep the PDU channel from being started and
    registered.  It never registers the RPi channel, and it touches no
    pin, queue or event. *)
Theorem setup_threads_registers_what_started
    (PDU_CHANNEL : Z) (s : State) (id1 id2 : Z) (ids : list Z) :
  addThread_ret s = id1 :: id2 :: ids ->
  thread_list (setup_threads PDU_CHANNEL s)
  = thread_list s
      ++ (if id1 =? -1 then [] else [mkThread id1 RFM23_CHANNEL])
      ++ (if id2 =? -1 then [] else [mkThread id2 PDU_CHANNEL]) /\
  addThread_ret (setup_threads PDU_CHANNEL s) = ids /\
  (RPI_CHANNEL <> RFM23_CHANNEL -> RPI_CHANNEL <> PDU_CHANNEL ->
   rpi_entries (thread_list (setup_threads PDU_CHANNEL s))
   = rpi_entries (thread_list s)) /\
  pins (setup_threads PDU_CHANNEL s) = pins s /\
  trace (setup_threads PDU_CHANNEL s) = trace s /\
  rpi_queue (setup_threads PDU_CHANNEL s) = rpi_queue s.
Proof.
  intros Hret. unfold setup_threads, threads_addThread. rewrite Hret.
  destruct (id1 =? -1) eqn:H1; simpl; destruct (id2 =? -1) eqn:H2; simpl;
    rewrite ?app_nil_r, <- ?app_assoc; repeat split;
    intros Hr Hp; unfold rpi_entries;
    rewrite ?List.filter_app, ?length_app; simpl;
    apply not_eq_sym in Hr, Hp; apply Z.eqb_neq in Hr, Hp;
    rewrite ?Hr, ?Hp; simpl; lia.
Qed.

End MoreRouterFacts.

(** * Further properties of the RPi channel *)

Section MoreChannelFacts.
Context `{Platform}.

Lemma handle_queue_forward
    (s : State) (pkt : PacketComm) (rest : list PacketComm) :
  rpi_queue s = pkt :: rest ->
  type (header pkt) <> CommandEpsSwitchName ->
  RPI.handle_queue s
  = Some (RPI.send_to_pi (set_rpi_packet pkt (set_rpi_queue rest s))).
Proof.
  intros Hq Hty. unfold RPI.handle_queue. rewrite Hq. simpl.
  destruct (type (header pkt)); try reflexivity. contradiction.
Qed.

(** X12. With an empty queue and the kill flag clear the channel loop
    never returns: after any number of iterations it is still running, the
    queue is still empty, and all it has done is yield 100 ms per
    iteration. *)
Theorem idle_channel_only_yields (n : nat) :
  forall s,
    rpi_queue s = [] ->
    kill_channel s = false ->
    exists s',
      RPI.loop n s = RPI.Running s' /\
      rpi_queue s' = [] /\
      kill_channel s' = false /\
      pins s' = pins s /\
      trace s' = trace s ++ replicate n (EvDelay 100).
Proof.
  induction n as [|n IH]; intros s Hq Hk.
  - exists s. simpl. rewrite app_nil_r. repeat split; assumption.
  - simpl. unfold RPI.handle_queue. rewrite Hq. simpl.
    unfold RPI.receive_from_pi. simpl. rewrite Hk.
    destruct (IH (threads_delay 100 s) Hq Hk)
      as (s' & Hrun & Hq' & Hk' & Hpins & Htr).
    exists s'. rewrite Hrun, Htr. simpl. rewrite <- app_assoc.
    repeat split; assumption.
Qed.

(** X13. Packets of any type other than the switch command are written to
    the serial port one per iteration, in queue order, each as the bytes
    [SLIPPacketize] gives for it and each followed by the 100 ms yield.
    After as many iterations as there were such packets at the front of
    the queue, exactly those have left the queue, no pin has changed and
    the loop is still running. *)
Theorem channel_forwards_in_queue_order (q : list PacketComm) :
  forall s rest,
    rpi_queue s = q ++ rest ->
    kill_channel s = false ->
    Forall (fun pkt => type (header pkt) <> CommandEpsSwitchName) q ->
    exists s',
      RPI.loop (length q) s = RPI.Running s' /\
      rpi_queue s' = rest /\
      kill_channel s' = false /\
      pins s' = pins s /\
      trace s' = trace s ++ concat (map forwarded q).
Proof.
  induction q as [|pkt q IH]; intros s rest Hq Hk Hty.
  - exists s. simpl. rewrite app_nil_r. repeat split; assumption.
  - inversion Hty as [|? ? Hpkt Hq']; subst.
    simpl. rewrite (handle_queue_forward s pkt (q ++ rest) Hq Hpkt).
    rewrite send_to_pi_eq. unfold RPI.receive_from_pi. simpl. rewrite Hk.
    match goal with
    | |- exists s', RPI.loop _ ?t = _ /\ _ =>
        destruct (IH t rest eq_refl Hk Hq')
          as (s' & Hrun & Hrest & Hk' & Hpins & Htr)
    end.
    exists s'. rewrite Hrun, Htr. simpl. unfold forwarded.
    rewrite <- !app_assoc. repeat split; assumption.
Qed.

(** X14. A switch command that is not the off command for the RPi (its
    first byte names another switch, or its byte 1 is not 0) is taken from
    the queue and nothing more: it is not written to the serial port. *)
Theorem other_switch_commands_are_swallowed
    (s : State) (cmd : PacketComm) (rest : list PacketComm) :
  rpi_queue s = cmd :: rest ->
  type (header cmd) = CommandEpsSwitchName ->
  (exists switchid,
      data cmd !! 0%nat = Some switchid /\ switchid <> PDU_SW_RPI) \/
  (data cmd !! 0%nat = Some PDU_SW_RPI /\
   exists arg1, data cmd !! 1%nat = Some arg1 /\ arg1 <> 0) ->
  RPI.handle_queue s = Some (set_rpi_packet cmd (set_rpi_queue rest s)).
Proof.
  intros Hq Hty Hwhy. unfold RPI.handle_queue. rewrite Hq. simpl.
  rewrite Hty.
  destruct Hwhy as [(sw & H0 & Hsw) | (H0 & a & H1 & Ha)]; rewrite H0; simpl.
  - apply Z.eqb_neq in Hsw. rewrite Hsw. reflexivity.
  - rewrite Z.eqb_refl, H1. simpl. apply Z.eqb_neq in Ha. rewrite Ha.
    reflexivity.
Qed.

(** X15. [handle_queue] indexes the payload past its end in exactly two
    cases: the packet at the head of the queue is a switch command whose
    payload is empty, or is the RPi switch id alone. *)
Theorem channel_reads_past_end_exactly_when (s : State) :
  RPI.handle_queue s = None <->
  exists pkt rest, rpi_queue s = pkt :: rest /\ channel_reads_past_end pkt.
Proof.
  unfold RPI.handle_queue, channel_reads_past_end.
  destruct (rpi_queue s) as [|pkt rest]; simpl.
  - split; [discriminate|]. intros (? & ? & ? & _). discriminate.
  - split.
    + intros Hh. exists pkt, rest. split; [reflexivity|].
      destruct (type (header pkt)); try discriminate.
      split; [reflexivity|].
      destruct (data pkt) as [|d0 [|d1 more]]; simpl in Hh.
      * left. reflexivity.
      * destruct (Z.eqb_spec d0 PDU_SW_RPI); [|discriminate].
        subst. right. reflexivity.
      * destruct (d0 =? PDU_SW_RPI); [|discriminate]. simpl in Hh.
        destruct (d1 =? 0); discriminate.
    + intros (pkt' & rest' & [= <- <-] & Hty & Hdat). rewrite Hty.
      destruct Hdat as [-> | ->]; simpl; [reflexivity|].
      rewrite Z.eqb_refl. reflexivity.
Qed.

Lemma shut_down_pi_frame (s : State) :
  main_queue (RPI.shut_down_pi s) = main_queue s /\
  rfm23_queue (RPI.shut_down_pi s) = rfm23_queue s /\
  pdu_queue (RPI.shut_down_pi s) = pdu_queue s /\
  packet (RPI.shut_down_pi s) = packet s /\
  pins (RPI.shut_down_pi s) = <[pin_number RPI_ENABLE := false]> (pins s).
Proof.
  unfold RPI.shut_down_pi. rewrite send_to_pi_eq. simpl.
  destruct (kill_thread RPI_CHANNEL (thread_list s)). repeat split.
Qed.

(** X16. The RPi channel never queues a packet and never powers the RPi
    on: handling its queue leaves the central, radio and PDU queues and
    the router's packet buffer unchanged, leaves every pin but the enable
    line unchanged, and never turns an enable line that reads LOW to HIGH.
    Its own queue loses its head or, on shutdown, everything. *)
Theorem channel_never_queues_nor_powers_on (s s' : State) :
  RPI.handle_queue s = Some s' ->
  main_queue s' = main_queue s /\
  rfm23_queue s' = rfm23_queue s /\
  pdu_queue s' = pdu_queue s /\
  packet s' = packet s /\
  (rpi_queue s' = tail (rpi_queue s) \/ rpi_queue s' = []) /\
  (forall pin,
      pin <> pin_number RPI_ENABLE ->
      digitalRead pin s' = digitalRead pin s) /\
  (digitalRead (pin_number RPI_ENABLE) s = false ->
   digitalRead (pin_number RPI_ENABLE) s' = false).
Proof.
  unfold RPI.handle_queue. intros Hh.
  destruct (rpi_queue s) as [|pkt rest] eqn:Hq; simpl in Hh.
  { injection Hh as <-. rewrite Hq. repeat split; auto. }
  assert (Hfwd : forall t,
             t = RPI.send_to_pi (set_rpi_packet pkt (set_rpi_queue rest s)) \/
             t = set_rpi_packet pkt (set_rpi_queue rest s) ->
             main_queue t = main_queue s /\
             rfm23_queue t = rfm23_queue s /\
             pdu_queue t = pdu_queue s /\
             packet t = packet s /\
             (rpi_queue t = rest \/ rpi_queue t = []) /\
             (forall pin,
                 pin <> pin_number RPI_ENABLE ->
                 digitalRead pin t = digitalRead pin s) /\
             (digitalRead (pin_number RPI_ENABLE) s = false ->
              digitalRead (pin_number RPI_ENABLE) t = false)).
  { intros t [-> | ->]; rewrite ?send_to_pi_eq;
      repeat split; auto. }
  destruct (type (header pkt));
    try (injection Hh as <-; apply Hfwd; left; reflexivity).
  destruct (data pkt !! 0%nat) as [switchid|]; [|discriminate].
  simpl in Hh. destruct (switchid =? PDU_SW_RPI);
    [|injection Hh as <-; apply Hfwd; right; reflexivity].
  destruct (data pkt !! 1%nat) as [arg1|]; [|discriminate].
  simpl in Hh. destruct (arg1 =? 0);
    [|injection Hh as <-; apply Hfwd; right; reflexivity].
  injection Hh as <-.
  destruct (shut_down_pi_frame (set_rpi_packet pkt (set_rpi_queue rest s)))
    as (Hm & Hr & Hp & Hb & Hpins).
  destruct (shut_down_pi_fields (set_rpi_packet pkt (set_rpi_queue rest s)))
    as (_ & Hlow & Hempty & _).
  split; [exact Hm|]. split; [exact Hr|]. split; [exact Hp|].
  split; [exact Hb|]. split; [right; exact Hempty|]. split.
  - intros pin Hne. unfold digitalRead. rewrite Hpins. simpl.
    rewrite lookup_insert_ne; [reflexivity|].
    intros E. apply Hne. symmetry. exact E.
  - intros _. exact Hlow.
Qed.

Lemma loop_keeps_kill_flag (s s' : State) :
  loop s = Some s' -> kill_channel s' = kill_channel s.
Proof.
  intros Hl. destruct (loop_inv _ _ Hl) as (s1 & Hr & ->).
  destruct (beacon_if_deployed_board s) as ((_ & _ & _ & _ & Bk & _) & _).
  destruct (route_packets_effects _ _ Hr) as ((Hk & _) & _).
  simpl. congruence.
Qed.

Lemma iterate_loop_keeps_kill_flag (n : nat) :
  forall s s', iterate n loop s = Some s' -> kill_channel s' = kill_channel s.
Proof.
  induction n as [|n IH]; intros s s' Hit; simpl in Hit.
  - injection Hit as <-. reflexivity.
  - destruct (loop s) as [s1|] eqn:Hl; [|discriminate]. simpl in Hit.
    rewrite (IH _ _ Hit). exact (loop_keeps_kill_flag _ _ Hl).
Qed.

(** X17. Nothing clears the kill flag.  Once it is set (by a shutdown),
    it is still set after any number of main-loop cycles, including cycles
    that power the RPi on again, and an RPi channel thread started then
    runs one iteration only: it handles its queue once and returns. *)
Theorem channel_started_after_a_shutdown_runs_once
    (n fuel : nat) (s s' : State) :
  kill_channel s = true ->
  iterate n loop s = Some s' ->
  kill_channel s' = true /\
  rpi_channel (S fuel) s'
  = match RPI.handle_queue s' with
    | Some s1 => RPI.Returned (threads_delay 100 s1)
    | None => RPI.Undefined
    end.
Proof.
  intros Hk Hit.
  assert (Hk' : kill_channel s' = true)
    by (rewrite (iterate_loop_keeps_kill_flag _ _ _ Hit); exact Hk).
  split; [exact Hk'|].
  unfold rpi_channel. simpl.
  destruct (RPI.handle_queue s') as [s1|] eqn:Hh; [|reflexivity].
  unfold RPI.receive_from_pi. simpl.
  rewrite (handle_queue_keeps_kill_flag _ _ Hh Hk'). reflexivity.
Qed.

(** X18. End to end: the off command for the RPi arrives from the central
    queue while the RPi queue is empty.  One cycle of the main loop hands
    it to the RPi channel, and the channel's next iteration writes the
    halt frame, waits 20000 ms, drives the enable line LOW and returns
    with the kill flag set and its queue empty. *)
Theorem off_command_travels_from_router_to_shutdown
    (s : State) (P : PacketComm) (rest : list PacketComm) (fuel : nat) :
  teensy_id_distinct ->
  main_queue s = P :: rest ->
  nodedest (header P) = u8 TEENSY_NODE_ID ->
  is_rpi_off_command P ->
  rpi_queue s = [] ->
  exists s1 s2,
    loop s = Some s1 /\
    rpi_channel (S fuel) s1 = RPI.Returned s2 /\
    kill_channel s2 = true /\
    digitalRead (pin_number RPI_ENABLE) s2 = false /\
    rpi_queue s2 = [] /\
    trace s2
    = trace s ++ [EvDelay 100]
        ++ map EvSerial2Write (halt_frame P)
        ++ [EvDelay 20000; EvDigitalWrite (pin_number RPI_ENABLE) false;
            EvDelay 100].
Proof.
  intros Hid Hq Hd Hoff Hempty.
  destruct (main_queue_beacon_if_deployed s) as [extra Hb].
  destruct (beacon_if_deployed_board s)
    as ((Btr & _) & _ & Brpi & _).
  rewrite Hq in Hb. simpl in Hb.
  assert (Hl : loop s
               = Some (threads_delay 100
                         (route_packet_to_rpi P
                            (set_packet P
                               (set_main_queue (rest ++ extra)
                                  (beacon_if_deployed s)))))).
  { unfold loop. rewrite (route_packets_pull _ _ _ Hb).
    rewrite dispatch_to_teensy by (simpl; assumption). simpl packet.
    destruct Hoff as (Hty & H0 & H1).
    rewrite Hty, H0. simpl. rewrite Z.eqb_refl, H1. reflexivity. }
  eexists. eexists. split; [exact Hl|].
  unfold rpi_channel. simpl RPI.loop.
  rewrite (handle_queue_off_command _ P []);
    [| simpl; rewrite Brpi, Hempty; reflexivity | exact Hoff].
  unfold RPI.receive_from_pi.
  match goal with
  | |- context [RPI.shut_down_pi ?t] =>
      destruct (shut_down_pi_fields t) as (Hk & Hlow & Hqueue & _ & Htr)
  end.
  simpl. rewrite Hk. split; [reflexivity|]. simpl.
  rewrite Htr. simpl. rewrite Btr.
  repeat split; try assumption.
  rewrite <- !app_assoc. reflexivity.
Qed.

End MoreChannelFacts.

(** * Further runs on the bench configuration *)

Section MoreBenchRuns.
#[local] Existing Instance bench.

Lemma ground_packet_is_forwarded_or_dropped_witness :
  route_packets (bench_with 8.0%float [bench_telemetry 1])
  = Some (set_rfm23_queue ([] ++ [bench_telemetry 1])
            (set_packet (bench_telemetry 1)
               (set_main_queue [] (bench_with 8.0%float [bench_telemetry 1]))))
  /\
  route_packets (bench_with 8.0%float [bench_telemetry 0])
  = Some (set_packet (bench_telemetry 0)
            (set_main_queue [] (bench_with 8.0%float [bench_telemetry 0]))).
Proof.
  split.
  - apply (ground_packet_is_forwarded_or_dropped (H := bench)
             (bench_with 8.0%float [bench_telemetry 1])
             (bench_telemetry 1) [] eq_refl eq_refl).
    reflexivity.
  - apply (ground_packet_is_forwarded_or_dropped (H := bench)
             (bench_with 8.0%float [bench_telemetry 0])
             (bench_telemetry 0) [] eq_refl eq_refl).
    discriminate.
Defined.

Lemma bench_data_not_for_ground (b : Z) :
  nodedest (header (bench_data b)) <> u8 GROUND_NODE_ID.
Proof. intros E. vm_compute in E. discriminate E. Defined.

Lemma rpi_packet_is_forwarded_when_rpi_can_run_witness :
  route_packets (bench_present [bench_data 5])
  = Some (set_rpi_queue ([] ++ [bench_data 5])
            (set_packet (bench_data 5)
               (set_main_queue [] (bench_present [bench_data 5]))))
  /\
  exists s',
    route_packets (bench_with 8.0%float [bench_data 5]) = Some s' /\
    rpi_queue s' = [] ++ [bench_data 5] /\
    pdu_queue s' = [] /\
    trace s' = [] ++ power_on_events /\
    digitalRead 36 s' = true.
Proof.
  split.
  - apply (rpi_packet_is_forwarded_when_rpi_can_run (H := bench)
             (bench_present [bench_data 5]) (bench_data 5) []
             eq_refl (bench_data_not_for_ground 5) eq_refl).
    reflexivity.
  - apply (rpi_packet_is_forwarded_when_rpi_can_run (H := bench)
             (bench_with 8.0%float [bench_data 5]) (bench_data 5) []
             eq_refl (bench_data_not_for_ground 5) eq_refl);
      reflexivity.
Defined.


Lemma pdu_traffic_is_forwarded_verbatim_witness :
  route_packets
    (bench_with 8.0%float [bench_packet CommandEpsSwitchName 1 2 [3; 1]])
  = Some (set_pdu_queue ([] ++ [bench_packet CommandEpsSwitchName 1 2 [3; 1]])
            (set_packet (bench_packet CommandEpsSwitchName 1 2 [3; 1])
               (set_main_queue []
                  (bench_with 8.0%float
                     [bench_packet CommandEpsSwitchName 1 2 [3; 1]])))).
Proof.
  apply (pdu_traffic_is_forwarded_verbatim (H := bench)
           (bench_with 8.0%float [bench_packet CommandEpsSwitchName 1 2 [3; 1]])
           (bench_packet CommandEpsSwitchName 1 2 [3; 1]) []
           bench_ids_distinct eq_refl eq_refl).
  right. split; [left; reflexivity|].
  exists 3. split; [reflexivity|discriminate].
Defined.

Lemma unroutable_packet_is_dropped_witness :
  route_packets (bench_with 8.0%float [bench_packet CommandObcPing 1 9 []])
  = Some (set_packet (bench_packet CommandObcPing 1 9 [])
            (set_main_queue []
               (bench_with 8.0%float [bench_packet CommandObcPing 1 9 []]))).
Proof.
  apply (unroutable_packet_is_dropped (H := bench)
           (bench_with 8.0%float [bench_packet CommandObcPing 1 9 []])
           (bench_packet CommandObcPing 1 9 []) [] eq_refl);
    [discriminate | discriminate | left; discriminate].
Defined.

Lemma rpi_switch_on_powers_on_unconditionally_witness :
  exists s',
    route_packets (bench_present [bench_switch [1; 1]]) = Some s' /\
    digitalRead 36 s' = true /\
    trace s' = [] ++ power_on_events /\
    (forall id ids,
        [2; 3; 4] = id :: ids -> id <> -1 ->
        thread_list s' = [] ++ [mkThread id RPI_CHANNEL]) /\
    rfm23_queue s' = [] /\
    pdu_queue s' = [] /\
    rpi_queue s' = [].
Proof.
  apply (rpi_switch_on_powers_on_unconditionally (H := bench)
           (bench_present [bench_switch [1; 1]]) (bench_switch [1; 1]) [] 1
           bench_ids_distinct eq_refl eq_refl eq_refl eq_refl eq_refl);
    [discriminate | reflexivity].
Defined.

Lemma bench_switch_on_cycle :
  exists s', loop (bench_with 8.0%float [bench_switch [1; 1]]) = Some s'.
Proof. eexists. vm_compute. reflexivity. Defined.

Lemma main_cycle_never_powers_off_witness :
  exists s',
    loop (bench_with 8.0%float [bench_switch [1; 1]]) = Some s' /\
    trace s' = [] ++ power_on_events ++ [EvDelay 100] /\
    digitalRead 25 s' = false /\
    kill_channel s' = false.
Proof.
  destruct bench_switch_on_cycle as [s' Hl]. exists s'.
  destruct (main_cycle_never_powers_off (H := bench) _ _ Hl)
    as (Htr & Hpins & _ & Hk & _).
  split; [exact Hl|]. split.
  - destruct Htr as [Htr | Htr]; [|exact Htr].
    vm_compute in Hl. injection Hl as <-. vm_compute in Htr. discriminate Htr.
  - split; [|exact Hk]. apply (Hpins 25). discriminate.
Defined.

Lemma main_cycle_only_appends_to_channel_queues_witness :
  exists s',
    loop (bench_with 8.0%float [bench_switch [1; 1]]) = Some s' /\
    grown_by_at_most_one [] (rfm23_queue s') /\
    grown_by_at_most_one [] (rpi_queue s') /\
    (exists extra, pdu_queue s' = [] ++ extra /\ (length extra <= 2)%nat) /\
    (thread_list s' = [] \/
     exists id, id <> -1 /\ thread_list s' = [] ++ [mkThread id RPI_CHANNEL]).
Proof.
  destruct bench_switch_on_cycle as [s' Hl]. exists s'.
  split; [exact Hl|].
  exact (main_cycle_only_appends_to_channel_queues (H := bench) _ _ Hl).
Defined.

Lemma beacon_timer_survives_clock_wrap_witness :
  millis bench_wrapped < deploymentbeacon bench_wrapped /\
  elapsed (deploymentbeacon bench_wrapped) bench_wrapped = 20500 /\
  deploymentbeacon (beacon_if_deployed bench_wrapped) = 19500 /\
  exists pkt,
    is_pdu_refresh pkt /\
    pdu_queue (beacon_if_deployed bench_wrapped) = [] ++ [pkt].
Proof.
  split; [reflexivity|].
  destruct (beacon_timer_survives_clock_wrap (H := bench) bench_wrapped 20500
              eq_refl) as (He & _ & Hdue).
  - split; [discriminate|reflexivity].
  - reflexivity.
  - split; [exact He|]. apply Hdue. discriminate.
Defined.

Lemma setup_threads_registers_what_started_witness :
  thread_list (setup_threads 2 (set_addThread_ret [-1; 7] bench_state))
  = [] ++ [] ++ [mkThread 7 2] /\
  addThread_ret (setup_threads 2 (set_addThread_ret [-1; 7] bench_state))
  = [] /\
  (RPI_CHANNEL <> RFM23_CHANNEL -> RPI_CHANNEL <> 2 ->
   rpi_entries
     (thread_list (setup_threads 2 (set_addThread_ret [-1; 7] bench_state)))
   = 0%nat) /\
  pins (setup_threads 2 (set_addThread_ret [-1; 7] bench_state)) = ∅ /\
  trace (setup_threads 2 (set_addThread_ret [-1; 7] bench_state)) = [] /\
  rpi_queue (setup_threads 2 (set_addThread_ret [-1; 7] bench_state)) = [].
Proof.
  exact (setup_threads_registers_what_started (H := bench) 2
           (set_addThread_ret [-1; 7] bench_state) (-1) 7 [] eq_refl).
Defined.

Lemma idle_channel_only_yields_witness :
  exists s',
    RPI.loop 3 bench_powered = RPI.Running s' /\
    rpi_queue s' = [] /\
    kill_channel s' = false /\
    pins s' = {[ 36 := true ]} /\
    trace s' = [] ++ [EvDelay 100; EvDelay 100; EvDelay 100].
Proof.
  exact (idle_channel_only_yields (H := bench) 3 bench_powered
           eq_refl eq_refl).
Defined.

Lemma bench_data_forwardable (b : Z) :
  type (header (bench_data b)) <> CommandEpsSwitchName.
Proof. discriminate. Defined.

Lemma channel_forwards_in_queue_order_witness :
  exists s',
    RPI.loop 2
      (set_rpi_queue [bench_data 1; bench_data 2; bench_switch [0]]
         bench_powered)
    = RPI.Running s' /\
    rpi_queue s' = [bench_switch [0]] /\
    kill_channel s' = false /\
    pins s' = {[ 36 := true ]} /\
    trace s'
    = [] ++ map EvSerial2Write [192; 1; 192] ++ [EvDelay 100]
         ++ map EvSerial2Write [192; 2; 192] ++ [EvDelay 100].
Proof.
  refine (channel_forwards_in_queue_order (H := bench)
            [bench_data 1; bench_data 2]
            (set_rpi_queue [bench_data 1; bench_data 2; bench_switch [0]]
               bench_powered)
            [bench_switch [0]] eq_refl eq_refl _).
  repeat constructor; apply bench_data_forwardable.
Defined.

Lemma other_switch_commands_are_swallowed_witness :
  RPI.handle_queue (bench_rpi_queue [1; 1])
  = Some (set_rpi_packet (bench_switch [1; 1])
            (set_rpi_queue [bench_data 1; bench_data 2; bench_data 3]
               (bench_rpi_queue [1; 1]))).
Proof.
  apply (other_switch_commands_are_swallowed (H := bench)
           (bench_rpi_queue [1; 1]) (bench_switch [1; 1])
           [bench_data 1; bench_data 2; bench_data 3] eq_refl eq_refl).
  right. split; [reflexivity|]. exists 1. split; [reflexivity|discriminate].
Defined.

Lemma bench_off_handled :
  exists s', RPI.handle_queue (bench_rpi_queue [0]) = Some s'.
Proof. eexists. vm_compute. reflexivity. Defined.

Lemma channel_never_queues_nor_powers_on_witness :
  exists s',
    RPI.handle_queue (bench_rpi_queue [0]) = Some s' /\
    main_queue s' = [] /\
    rfm23_queue s' = [] /\
    pdu_queue s' = [] /\
    digitalRead 25 s' = false.
Proof.
  destruct bench_off_handled as [s' Hh]. exists s'.
  destruct (channel_never_queues_nor_powers_on (H := bench) _ _ Hh)
    as (Hm & Hr & Hp & _ & _ & Hpins & _).
  split; [exact Hh|]. split; [exact Hm|]. split; [exact Hr|].
  split; [exact Hp|]. apply (Hpins 25). discriminate.
Defined.

Lemma bench_rearm_cycles :
  exists s', iterate 2 loop bench_rearm = Some s'.
Proof. eexists. vm_compute. reflexivity. Defined.

Lemma channel_started_after_a_shutdown_runs_once_witness :
  exists s',
    iterate 2 loop bench_rearm = Some s' /\
    kill_channel s' = true /\
    rpi_channel 5 s'
    = match RPI.handle_queue s' with
      | Some s1 => RPI.Returned (threads_delay 100 s1)
      | None => RPI.Undefined
      end.
Proof.
  destruct bench_rearm_cycles as [s' Hit]. exists s'.
  split; [exact Hit|].
  exact (channel_started_after_a_shutdown_runs_once (H := bench)
           2 4 bench_rearm s' eq_refl Hit).
Defined.

Lemma off_command_travels_from_router_to_shutdown_witness :
  exists s1 s2,
    loop (set_main_queue [bench_switch [0]] bench_powered) = Some s1 /\
    rpi_channel 1 s1 = RPI.Returned s2 /\
    kill_channel s2 = true /\
    digitalRead 36 s2 = false /\
    rpi_queue s2 = [] /\
    trace s2
    = [] ++ [EvDelay 100]
         ++ map EvSerial2Write [192; 14; 0; 192]
         ++ [EvDelay 20000; EvDigitalWrite 36 false; EvDelay 100].
Proof.
  exact (off_command_travels_from_router_to_shutdown (H := bench)
           (set_main_queue [bench_switch [0]] bench_powered)
           (bench_switch [0]) [] 0 bench_ids_distinct eq_refl eq_refl
           (conj eq_refl (conj eq_refl eq_refl)) eq_refl).
Defined.

(** A switch command for the flight computer that names the RPi switch
    and carries no argument byte makes the router read past the payload;
    the same packet on the RPi queue does the same to the channel. *)
Example short_switch_command_is_read_past_its_end :
  route_packets (bench_with 8.0%float [bench_switch []]) = None /\
  RPI.handle_queue (set_rpi_queue [bench_switch []] bench_powered) = None.
Proof. split; reflexivity. Qed.

End MoreBenchRuns.
